(** * The dual-mode analysis engine of [agents/advanced]

    A shallow embedding of [agents/advanced/main.py] (the parallel and the
    sequential coordinator) and of [agents/advanced/api_server.py] (the
    in-memory task registry and its HTTP handlers), followed by the
    properties of the specification that concern them.

    Python values are modelled as the code has them: [time.time()] readings
    are IEEE binary64 numbers ([float]), strings are [string], a [dict] is an
    insertion-ordered association list with unique keys, and an exception is
    a value of [exn] threaded through a state-and-error monad over the
    process state ([world]).  Output on stdout ([print]) is not modelled. *)

From Stdlib Require Import ZArith List String Ascii Bool Lia.
From Stdlib Require Import NArith Floats DecimalString DecimalZ DecimalPos.
Import ListNotations.

Open Scope string_scope.

(** ** Python dictionaries *)

Section PyDict.
Context {V : Type}.

Definition dict : Type := list (string * V).

(** [d.get(k)] *)
Fixpoint dict_get (d : dict) (k : string) : option V :=
  match d with
  | [] => None
  | (k', v) :: r => if String.eqb k' k then Some v else dict_get r k
  end.

(** [d[k] = v]: an existing key keeps its position, a new key goes last. *)
Fixpoint dict_set (d : dict) (k : string) (v : V) : dict :=
  match d with
  | [] => [(k, v)]
  | (k', v') :: r =>
      if String.eqb k' k then (k, v) :: r else (k', v') :: dict_set r k v
  end.

(** [del d[k]] when [k] is a key of [d]: no entry of key [k] is left. *)
Fixpoint dict_remove (d : dict) (k : string) : dict :=
  match d with
  | [] => []
  | (k', v) :: r =>
      if String.eqb k' k then dict_remove r k else (k', v) :: dict_remove r k
  end.

Definition dict_keys (d : dict) : list string := map fst d.

Definition dict_mem (d : dict) (k : string) : bool :=
  match dict_get d k with Some _ => true | None => false end.
End PyDict.

Arguments dict V : clear implicits.

(** The values the server stores in a task record, and a dictionary of them. *)
#[warnings="-register-all"]
Inductive pyval : Type :=
| PStr (s : string)
| PFloat (f : float)
| PDict (d : list (string * pyval)).

Definition pydict : Type := dict pyval.

(** ** Exceptions, the process state and the monad *)

Inductive exn : Type :=
| KeyError (key : string)
| CrewError (msg : string)
| ValidationError (field : string)
| ValueError (msg : string)
| OverflowError (msg : string)
| HTTPException (status_code : nat) (detail : string).

Inductive result (A : Type) : Type :=
| Ok (a : A)
| Raise (e : exn).

Arguments Ok {A} a.
Arguments Raise {A} e.

(** The four crews of [main.py]. *)
Inductive crew : Type :=
| financial_crew
| news_crew
| analysis_crew
| sequential_crew.

(** What [crew.kickoff] does: it returns a [CrewOutput] (here its raw text)
    or raises with a message. *)
Inductive outcome : Type :=
| Returns (output : string)
| Raises (msg : string).

(** The collaborators outside the program: the wall clock and the crews.
    [time_at n] is the reading of the [n]-th call of [time.time()];
    [kickoff n c inputs] is the outcome of kicking off crew [c] when [n]
    kickoffs have happened before in this process. *)
Record env : Type := {
  time_at : nat -> float;
  kickoff : nat -> crew -> pydict -> outcome
}.

(** A background task queued by [BackgroundTasks.add_task]:
    the arguments of [run_analysis_background]. *)
Record bg_task : Type := {
  bg_task_id : string;
  bg_stock : string;
  bg_execution_mode : string
}.

Record world : Type := {
  ticks : nat;                      (* calls of time.time() so far *)
  kicks : list (crew * pydict);     (* crew kickoffs so far, oldest first *)
  task_results : dict pydict;       (* the module-level registry *)
  background : list bg_task         (* queued, not yet run *)
}.

Definition initial_world : world :=
  {| ticks := 0; kicks := []; task_results := []; background := [] |}.

Definition M (A : Type) : Type := world -> result A * world.

Definition ret {A} (a : A) : M A := fun w => (Ok a, w).

Definition raise {A} (e : exn) : M A := fun w => (Raise e, w).

Definition bind {A B} (c : M A) (k : A -> M B) : M B :=
  fun w =>
    match c w with
    | (Ok a, w') => k a w'
    | (Raise e, w') => (Raise e, w')
    end.

Declare Scope py_scope.
Delimit Scope py_scope with py.
Notation "x <- c ;; k" := (bind c (fun x => k))
  (at level 61, c at next level, right associativity) : py_scope.
Notation "c ;;; k" := (bind c (fun _ => k))
  (at level 61, right associativity) : py_scope.
Notation "' ( x , y ) <- c ;; k" := (bind c (fun '(x, y) => k))
  (at level 61, c at next level, x name, y name, right associativity) : py_scope.

Open Scope py_scope.

Definition get_registry : M (dict pydict) := fun w => (Ok (task_results w), w).

Definition put_registry (d : dict pydict) : M unit :=
  fun w =>
    (Ok tt,
     {| ticks := ticks w; kicks := kicks w;
        task_results := d; background := background w |}).

(** [task_results[task_id] = record] *)
Definition registry_set (task_id : string) (record : pydict) : M unit :=
  d <- get_registry ;; put_registry (dict_set d task_id record).

(** [task_results[task_id]] *)
Definition registry_getitem (task_id : string) : M pydict :=
  d <- get_registry ;;
  match dict_get d task_id with
  | Some record => ret record
  | None => raise (KeyError task_id)
  end.

(** [del task_results[task_id]] *)
Definition registry_delitem (task_id : string) : M unit :=
  d <- get_registry ;;
  if dict_mem d task_id then put_registry (dict_remove d task_id)
  else raise (KeyError task_id).

(** [record[key]] on a task record *)
Definition getitem (record : pydict) (key : string) : M pyval :=
  match dict_get record key with
  | Some v => ret v
  | None => raise (KeyError key)
  end.

(** [background_tasks.add_task(run_analysis_background, ...)] *)
Definition add_task (t : bg_task) : M unit :=
  fun w =>
    (Ok tt,
     {| ticks := ticks w; kicks := kicks w;
        task_results := task_results w; background := background w ++ [t] |}).

(** ** Numbers and strings *)

(** [int(x)] on a float: truncation towards zero; [nan] and the infinities
    raise. *)
Definition py_int (x : float) : M Z :=
  match Prim2SF x with
  | S754_zero _ => ret 0%Z
  | S754_finite s m e =>
      let mag := if (0 <=? e)%Z then (Z.pos m * 2 ^ e)%Z
                 else Z.shiftr (Z.pos m) (- e) in
      ret (if s then (- mag)%Z else mag)
  | S754_infinity _ => raise (OverflowError "cannot convert float infinity to integer")
  | S754_nan => raise (ValueError "cannot convert float NaN to integer")
  end.

(** [str(n)] on an int *)
Definition py_str_int (n : Z) : string := NilZero.string_of_int (Z.to_int n).

(** ** The coordinators of [main.py] *)

Section Engine.
Variable E : env.

(** [time.time()] *)
Definition time_time : M float :=
  fun w =>
    (Ok (time_at E (ticks w)),
     {| ticks := S (ticks w); kicks := kicks w;
        task_results := task_results w; background := background w |}).

(** [crew.kickoff(inputs=inputs)] *)
Definition crew_kickoff (c : crew) (inputs : pydict) : M string :=
  fun w =>
    let w' := {| ticks := ticks w; kicks := kicks w ++ [(c, inputs)];
                 task_results := task_results w;
                 background := background w |} in
    match kickoff E (List.length (kicks w)) c inputs with
    | Returns output => (Ok output, w')
    | Raises msg => (Raise (CrewError msg), w')
    end.

(** [run_crew_task(crew, inputs, task_name)] *)
Definition run_crew_task (c : crew) (inputs : pydict) (task_name : string)
  : M string :=
  result <- crew_kickoff c inputs ;;
  ret result.

(** [executor.submit(fn, ...)]: the call runs on a worker and its return
    value or exception is kept in the future; [submit] itself does not
    raise.  Here the two workers are linearised in submission order; their
    interleavings are the subject of [Module Pool] below. *)
Definition submit {A} (call : M A) : M (result A) :=
  fun w => let (r, w') := call w in (Ok r, w').

(** [future.result()] *)
Definition future_result {A} (future : result A) : M A :=
  match future with
  | Ok a => ret a
  | Raise e => raise e
  end.


Definition run_parallel_execution (stock_input : pydict) : M (float * float) :=
  (* Phase 1 *)
  parallel_start <- time_time ;;
  financial_future <-
    submit (run_crew_task financial_crew stock_input "Financial Data Gathering") ;;
  news_future <-
    submit (run_crew_task news_crew stock_input "News Gathering") ;;
  financial_result <- future_result financial_future ;;
  news_result <- future_result news_future ;;
  parallel_end <- time_time ;;
  let parallel_time := (parallel_end - parallel_start)%float in
  (* Phase 2 *)
  analysis_start <- time_time ;;
  analysis_result <- crew_kickoff analysis_crew stock_input ;;
  analysis_end <- time_time ;;
  let analysis_time := (analysis_end - analysis_start)%float in
  ret (parallel_time, analysis_time).

Definition run_sequential_execution (stock_input : pydict) : M (float * Z) :=
  sequential_start <- time_time ;;
  result <- crew_kickoff sequential_crew stock_input ;;
  sequential_end <- time_time ;;
  let sequential_time := (sequential_end - sequential_start)%float in
  ret (sequential_time, 0%Z).

(** ** The server of [api_server.py] *)

(** The pydantic models of the responses. *)
Record AnalysisResponse : Type := {
  ar_status : string;
  ar_message : string;
  ar_execution_time : option float;
  ar_parallel_time : option float;
  ar_analysis_time : option float;
  ar_time_saved : option float;
  ar_task_id : option string
}.

Record TaskStatus : Type := {
  ts_task_id : string;
  ts_status : string;
  ts_result : option pydict;
  ts_execution_time : option float;
  ts_error : option string
}.

(** Validation of a field by the response model. The lax coercions of
    pydantic (a numeric string for a float) are left out: the server
    stores no such value. *)
Definition as_str (field : string) (v : pyval) : M string :=
  match v with PStr s => ret s | _ => raise (ValidationError field) end.

Definition as_opt_str (field : string) (v : option pyval) : M (option string) :=
  match v with
  | None => ret None
  | Some (PStr s) => ret (Some s)
  | Some _ => raise (ValidationError field)
  end.

Definition as_opt_float (field : string) (v : option pyval) : M (option float) :=
  match v with
  | None => ret None
  | Some (PFloat f) => ret (Some f)
  | Some _ => raise (ValidationError field)
  end.

Definition as_opt_dict (field : string) (v : option pyval) : M (option pydict) :=
  match v with
  | None => ret None
  | Some (PDict d) => ret (Some d)
  | Some _ => raise (ValidationError field)
  end.

(** The record literals written by [run_analysis_background]. *)
Definition running_record (start_time : float) (stock execution_mode : string)
  : pydict :=
  [ ("status", PStr "running");
    ("start_time", PFloat start_time);
    ("stock", PStr stock);
    ("execution_mode", PStr execution_mode) ].

Definition completed_parallel_record
  (execution_time parallel_time analysis_time time_saved : float)
  (stock execution_mode : string) : pydict :=
  [ ("status", PStr "completed");
    ("execution_time", PFloat execution_time);
    ("parallel_time", PFloat parallel_time);
    ("analysis_time", PFloat analysis_time);
    ("time_saved", PFloat time_saved);
    ("stock", PStr stock);
    ("execution_mode", PStr execution_mode) ].

Definition completed_sequential_record
  (execution_time : float) (stock execution_mode : string) : pydict :=
  [ ("status", PStr "completed");
    ("execution_time", PFloat execution_time);
    ("stock", PStr stock);
    ("execution_mode", PStr execution_mode) ].

(** Lines 66-74 of [run_analysis_background]: the clock is read and the
    record of [task_id] is set to a running one. *)
Definition record_running (task_id stock execution_mode : string) : M float :=
  start_time <- time_time ;;
  registry_set task_id (running_record start_time stock execution_mode) ;;;
  ret start_time.

(** Lines 76-106 of [run_analysis_background]. *)
Definition run_and_complete (start_time : float)
  (task_id stock execution_mode : string) : M unit :=
  let stock_input : pydict := [("stock", PStr stock)] in
  if String.eqb execution_mode "parallel" then
    '(parallel_time, analysis_time) <- run_parallel_execution stock_input ;;
    end_time <- time_time ;;
    let execution_time := (end_time - start_time)%float in
    let estimated_sequential_time := (parallel_time * 2 + analysis_time)%float in
    let time_saved := (estimated_sequential_time - execution_time)%float in
    registry_set task_id
      (completed_parallel_record execution_time parallel_time analysis_time
         time_saved stock execution_mode)
  else
    '(sequential_time, _unused) <- run_sequential_execution stock_input ;;
    end_time <- time_time ;;
    let execution_time := (end_time - start_time)%float in
    registry_set task_id
      (completed_sequential_record execution_time stock execution_mode).

Definition run_analysis_background (task_id stock execution_mode : string)
  : M unit :=
  start_time <- record_running task_id stock execution_mode ;;
  run_and_complete start_time task_id stock execution_mode.

(** The request model [AnalysisRequest]; [execution_mode] is a plain [str]. *)
Record AnalysisRequest : Type := {
  stock : string;
  execution_mode : string
}.

(** [GET /] *)
Definition root : M string := ret "Financial Analysis API".

(** [GET /health] *)
Definition health_check : M (string * float) :=
  timestamp <- time_time ;; ret ("healthy", timestamp).

(** [POST /analyze] *)
Definition start_analysis (request : AnalysisRequest) : M AnalysisResponse :=
  now <- time_time ;;
  seconds <- py_int now ;;
  let task_id := stock request ++ "_" ++ py_str_int seconds in
  add_task {| bg_task_id := task_id; bg_stock := stock request;
              bg_execution_mode := execution_mode request |} ;;;
  ret {| ar_status := "started";
         ar_message := "Analysis started for " ++ stock request ++ " in "
                       ++ execution_mode request ++ " mode";
         ar_execution_time := None; ar_parallel_time := None;
         ar_analysis_time := None; ar_time_saved := None;
         ar_task_id := Some task_id |}.

(** [GET /status/{task_id}] *)
Definition get_task_status (task_id : string) : M TaskStatus :=
  task_data <- registry_getitem task_id ;;
  status_value <- getitem task_data "status" ;;
  status <- as_str "status" status_value ;;
  result <- as_opt_dict "result" (dict_get task_data "results") ;;
  execution_time <- as_opt_float "execution_time"
                      (dict_get task_data "execution_time") ;;
  error <- as_opt_str "error" (dict_get task_data "error") ;;
  ret {| ts_task_id := task_id; ts_status := status; ts_result := result;
         ts_execution_time := execution_time; ts_error := error |}.

(** One entry of [GET /tasks]. *)
Record TaskSummary : Type := {
  sum_task_id : string;
  sum_status : pyval;
  sum_stock : option pyval;
  sum_execution_mode : option pyval;
  sum_execution_time : option pyval
}.

Fixpoint summaries (items : dict pydict) : M (list TaskSummary) :=
  match items with
  | [] => ret []
  | (task_id, data) :: rest =>
      status <- getitem data "status" ;;
      tail <- summaries rest ;;
      ret ({| sum_task_id := task_id; sum_status := status;
              sum_stock := dict_get data "stock";
              sum_execution_mode := dict_get data "execution_mode";
              sum_execution_time := dict_get data "execution_time" |} :: tail)
  end.

(** [GET /tasks] *)
Definition list_tasks : M (list TaskSummary) :=
  d <- get_registry ;; summaries d.

(** [DELETE /tasks/{task_id}] *)
Definition delete_task (task_id : string) : M string :=
  registry_delitem task_id ;;;
  ret ("Task " ++ task_id ++ " deleted successfully").

(** [POST /analyze/sync] *)
Definition analyze_sync (request : AnalysisRequest) : M AnalysisResponse :=
  start_time <- time_time ;;
  let stock_input : pydict := [("stock", PStr (stock request))] in
  if String.eqb (execution_mode request) "parallel" then
    '(parallel_time, analysis_time) <- run_parallel_execution stock_input ;;
    end_time <- time_time ;;
    let execution_time := (end_time - start_time)%float in
    let estimated_sequential_time := (parallel_time * 2 + analysis_time)%float in
    let time_saved := (estimated_sequential_time - execution_time)%float in
    ret {| ar_status := "completed";
           ar_message := "Analysis completed for " ++ stock request;
           ar_execution_time := Some execution_time;
           ar_parallel_time := Some parallel_time;
           ar_analysis_time := Some analysis_time;
           ar_time_saved := Some time_saved;
           ar_task_id := None |}
  else
    '(sequential_time, _unused) <- run_sequential_execution stock_input ;;
    end_time <- time_time ;;
    let execution_time := (end_time - start_time)%float in
    ret {| ar_status := "completed";
           ar_message := "Analysis completed for " ++ stock request;
           ar_execution_time := Some execution_time;
           ar_parallel_time := None; ar_analysis_time := None;
           ar_time_saved := None; ar_task_id := None |}.

(** The framework runs the oldest queued background task once the
    response has been sent. *)
Definition run_next_background : M unit :=
  fun w =>
    match background w with
    | [] => (Ok tt, w)
    | t :: rest =>
        run_analysis_background (bg_task_id t) (bg_stock t) (bg_execution_mode t)
          {| ticks := ticks w; kicks := kicks w;
             task_results := task_results w; background := rest |}
    end.

(** The status code a client sees: a raised [HTTPException] carries its
    own, any other exception escaping a handler is answered with 500. *)
Definition http_status {A} (r : result A) : nat :=
  match r with
  | Ok _ => 200
  | Raise (HTTPException status_code _) => status_code
  | Raise _ => 500
  end.

End Engine.

(** ** The requests a process serves *)

(** One atomic step of the server: a request handled to its response, or
    the oldest queued background task run to its end.  The handlers are
    [async def] without an [await], so the event loop runs each of them,
    and each background task, without interleaving. *)
Inductive op : Type :=
| GetRoot
| GetHealth
| PostAnalyze (request : AnalysisRequest)
| RunBackground
| GetStatus (task_id : string)
| GetTasks
| DeleteTask (task_id : string)
| PostAnalyzeSync (request : AnalysisRequest).

Definition handle (E : env) (o : op) : M unit :=
  match o with
  | GetRoot => root ;;; ret tt
  | GetHealth => health_check E ;;; ret tt
  | PostAnalyze request => start_analysis E request ;;; ret tt
  | RunBackground => run_next_background E
  | GetStatus task_id => get_task_status task_id ;;; ret tt
  | GetTasks => list_tasks ;;; ret tt
  | DeleteTask task_id => delete_task task_id ;;; ret tt
  | PostAnalyzeSync request => analyze_sync E request ;;; ret tt
  end.

(** The state a step leaves behind, whether it returned or raised. *)
Definition after (E : env) (o : op) (w : world) : world := snd (handle E o w).

Definition after_all (E : env) (os : list op) (w : world) : world :=
  fold_left (fun w o => after E o w) os w.

Inductive reachable (E : env) : world -> Prop :=
| reachable_initial : reachable E initial_world
| reachable_after o w : reachable E w -> reachable E (after E o w).

(** [task_results[task_id]["status"]], when both keys are there. *)
Definition status_of (w : world) (task_id : string) : option pyval :=
  match dict_get (task_results w) task_id with
  | Some record => dict_get record "status"
  | None => None
  end.

(** The shapes of the records the server writes. *)
Inductive written_record : pydict -> Prop :=
| written_running start_time stock execution_mode :
    written_record (running_record start_time stock execution_mode)
| written_completed_parallel execution_time parallel_time analysis_time
    time_saved stock execution_mode :
    written_record
      (completed_parallel_record execution_time parallel_time analysis_time
         time_saved stock execution_mode)
| written_completed_sequential execution_time stock execution_mode :
    written_record
      (completed_sequential_record execution_time stock execution_mode).

Definition registry_written (d : dict pydict) : Prop :=
  Forall (fun kv => written_record (snd kv)) d.

(** ** Phase 1 and Phase 2 as threads

    Lines 79-101 of [run_parallel_execution] with the two workers of the
    [ThreadPoolExecutor] as threads of their own: a state holds the
    program point of the main thread and the state of the three crew
    calls, a label says which thread moves. *)

Module Pool.

Inductive job : Type :=
| NotSubmitted
| Queued
| Running
| Done (r : result string).

Inductive pc : Type :=
| AtSubmitFinancial              (* line 81 *)
| AtSubmitNews                   (* line 84 *)
| AtFinancialResult              (* line 89 *)
| AtNewsResult                   (* line 90 *)
| AtExit (pending : option exn)  (* leaving [with]: shutdown(wait=True) *)
| AtAnalysis                     (* line 101 *)
| Returned
| Raised (e : exn).

Record state : Type := {
  at_pc : pc;
  financial : job;
  news : job;
  analysis : job
}.


(** Phase 1 workers are named by their crew. *)
Inductive worker : Type := FinancialWorker | NewsWorker.

Inductive label : Type :=
| Main                                  (* the main thread moves *)
| Start (k : worker)                    (* a worker takes its call *)
| Finish (k : worker) (o : outcome)     (* the crew of a worker ends *)
| Kickoff (o : outcome).                (* line 101, with what the crew does *)

Definition is_running (j : job) : nat :=
  match j with Running => 1 | _ => 0 end.

(** Workers busy with a call. *)
Definition running (s : state) : nat :=
  is_running (financial s) + is_running (news s).

Definition is_done (j : job) : bool :=
  match j with Done _ => true | _ => false end.

Definition job_of (k : worker) (s : state) : job :=
  match k with FinancialWorker => financial s | NewsWorker => news s end.

Definition set_job (k : worker) (j : job) (s : state) : state :=
  match k with
  | FinancialWorker =>
      {| at_pc := at_pc s; financial := j; news := news s;
         analysis := analysis s |}
  | NewsWorker =>
      {| at_pc := at_pc s; financial := financial s; news := j;
         analysis := analysis s |}
  end.

Definition set_pc (p : pc) (s : state) : state :=
  {| at_pc := p; financial := financial s; news := news s;
     analysis := analysis s |}.

Definition to_result (o : outcome) : result string :=
  match o with
  | Returns output => Ok output
  | Raises msg => Raise (CrewError msg)
  end.

(** [future.result()] in the main thread: blocked until the call is done,
    then on to [next] or out of the [with] block with the exception. *)
Definition wait_result (j : job) (next : pc) (s : state) : option state :=
  match j with
  | Done (Ok _) => Some (set_pc next s)
  | Done (Raise e) => Some (set_pc (AtExit (Some e)) s)
  | _ => None
  end.

(** A pool of [cap] workers; [None] when the labelled thread cannot move. *)
Definition step (cap : nat) (l : label) (s : state) : option state :=
  match l with
  | Main =>
      match at_pc s with
      | AtSubmitFinancial =>
          Some (set_pc AtSubmitNews (set_job FinancialWorker Queued s))
      | AtSubmitNews =>
          Some (set_pc AtFinancialResult (set_job NewsWorker Queued s))
      | AtFinancialResult => wait_result (financial s) AtNewsResult s
      | AtNewsResult => wait_result (news s) (AtExit None) s
      | AtExit pending =>
          if is_done (financial s) && is_done (news s) then
            match pending with
            | None => Some (set_pc AtAnalysis s)
            | Some e => Some (set_pc (Raised e) s)
            end
          else None
      | AtAnalysis | Returned | Raised _ => None
      end
  | Start k =>
      match job_of k s with
      | Queued =>
          if Nat.ltb (running s) cap then Some (set_job k Running s) else None
      | _ => None
      end
  | Finish k o =>
      match job_of k s with
      | Running => Some (set_job k (Done (to_result o)) s)
      | _ => None
      end
  | Kickoff o =>
      match at_pc s with
      | AtAnalysis =>
          Some {| at_pc := match o with
                           | Returns _ => Returned
                           | Raises msg => Raised (CrewError msg)
                           end;
                  financial := financial s; news := news s;
                  analysis := Done (to_result o) |}
      | _ => None
      end
  end.

Fixpoint run (cap : nat) (ls : list label) (s : state) : option state :=
  match ls with
  | [] => Some s
  | l :: rest =>
      match step cap l s with
      | Some s' => run cap rest s'
      | None => None
      end
  end.



End Pool.

(** ** How far a run of the pool is from its end *)






(** ** The command line of [main.py] *)

(** The parsed arguments: [--parallel], [--sequential] and [--stock]. *)
Record Namespace : Type := {
  arg_parallel : bool;
  arg_sequential : bool;
  arg_stock : string
}.

Definition ENABLE_PARALLEL_EXECUTION : bool := true.

(** The figures [main] prints, before they are formatted. *)
Inductive report : Type :=
| ParallelReport (parallel_time analysis_time execution_time time_saved : float)
| SequentialReport (execution_time : float).

Definition main (E : env) (args : Namespace) : M report :=
  let use_parallel :=
    if arg_parallel args then true
    else if arg_sequential args then false
    else ENABLE_PARALLEL_EXECUTION in
  start_time <- time_time E ;;
  let stock_input : pydict := [("stock", PStr (arg_stock args))] in
  if use_parallel then
    '(parallel_time, analysis_time) <- run_parallel_execution E stock_input ;;
    end_time <- time_time E ;;
    let execution_time := (end_time - start_time)%float in
    let estimated_sequential_time := (parallel_time * 2 + analysis_time)%float in
    let time_saved := (estimated_sequential_time - execution_time)%float in
    ret (ParallelReport parallel_time analysis_time execution_time time_saved)
  else
    '(sequential_time, _unused) <- run_sequential_execution E stock_input ;;
    end_time <- time_time E ;;
    let execution_time := (end_time - start_time)%float in
    ret (SequentialReport execution_time).

(** No underscore occurs in [s]. *)
Fixpoint underscore_free (s : string) : Prop :=
  match s with
  | EmptyString => True
  | String c r => c <> "_"%char /\ underscore_free r
  end.

(** ** The client of [example_client.py] *)

Module Client.

(** A JSON value as [response.json()] gives it. *)
#[warnings="-register-all"]
Inductive json : Type :=
| JNull
| JBool (b : bool)
| JNum (x : float)
| JStr (s : string)
| JArr (items : list json)
| JObj (members : list (string * json)).

(** What a call of the [requests] session does: a response with its
    status code and body, or a [RequestException]. *)
Inductive reply : Type :=
| Response (status_code : nat) (body : json)
| RequestFailed (msg : string).

Inductive request : Type :=
| Get (url : string)
| Post (url : string) (body : json).

(** The exceptions the client does not catch. *)
Inductive error : Type :=
| KeyError (key : string)
| TypeError (msg : string)
| AttributeError (msg : string).

(** The world of the client: its clock and the server it talks to;
    [send n r] is the reply to request [r] when [n] requests were sent
    before. *)
Record setting : Type := {
  base_url : string;
  now : nat -> float;
  send : nat -> request -> reply
}.

Record state : Type := {
  clock_reads : nat;
  sent : list request;
  slept : list float
}.

Definition start : state := {| clock_reads := 0; sent := []; slept := [] |}.

(** [bool(v)] *)
Definition truthy (v : json) : bool :=
  match v with
  | JNull => false
  | JBool b => b
  | JNum x => negb (PrimFloat.eqb x 0)
  | JStr s => negb (String.eqb s "")
  | JArr items => match items with [] => false | _ => true end
  | JObj members => match members with [] => false | _ => true end
  end.

(** [v[key]] for a string [key] *)
Definition subscript (v : json) (key : string) : json + error :=
  match v with
  | JObj members =>
      match dict_get members key with
      | Some x => inl x
      | None => inr (KeyError key)
      end
  | JArr _ => inr (TypeError "list indices must be integers or slices, not str")
  | JStr _ => inr (TypeError "string indices must be integers, not 'str'")
  | _ => inr (TypeError "object is not subscriptable")
  end.

(** [v == s] for a string [s] *)
Definition equals_str (v : json) (s : string) : bool :=
  match v with JStr x => String.eqb x s | _ => false end.

(** The body FastAPI sends for a [TaskStatus]. *)
Fixpoint json_of_pyval (v : pyval) : json :=
  match v with
  | PStr s => JStr s
  | PFloat x => JNum x
  | PDict d =>
      JObj (map (fun kv : string * pyval => let (k, x) := kv in (k, json_of_pyval x)) d)
  end.

Definition json_of_status (view : TaskStatus) : json :=
  JObj
    [ ("task_id", JStr (ts_task_id view));
      ("status", JStr (ts_status view));
      ("result",
        match ts_result view with
        | Some d => json_of_pyval (PDict d)
        | None => JNull
        end);
      ("execution_time",
        match ts_execution_time view with Some x => JNum x | None => JNull end);
      ("error",
        match ts_error view with Some s => JStr s | None => JNull end) ].

(** [GET /status/{task_id}] as the client sees it when the server is in
    state [w]. *)
Definition status_reply (w : world) (task_id : string) : reply :=
  match fst (get_task_status task_id w) with
  | Ok view => Response 200 (json_of_status view)
  | Raise (HTTPException status_code detail) =>
      Response status_code (JObj [("detail", JStr detail)])
  | Raise _ => Response 500 (JStr "Internal Server Error")
  end.

Section Methods.
Variable S : setting.

(** [self.session.get(url)], [self.session.post(url, json=body)] *)
Definition session_send (r : request) (st : state) : reply * state :=
  (send S (List.length (sent st)) r,
   {| clock_reads := clock_reads st; sent := sent st ++ [r];
      slept := slept st |}).

(** [time.time()] *)
Definition time_time (st : state) : float * state :=
  (now S (clock_reads st),
   {| clock_reads := Datatypes.S (clock_reads st); sent := sent st;
      slept := slept st |}).

(** [time.sleep(seconds)] *)
Definition time_sleep (seconds : float) (st : state) : state :=
  {| clock_reads := clock_reads st; sent := sent st;
     slept := slept st ++ [seconds] |}.

(** [response.raise_for_status()] raises for the codes 400 to 599. *)
Definition is_error_status (status_code : nat) : bool :=
  Nat.leb 400 status_code && Nat.ltb status_code 600.

Definition health_check (st : state) : bool * state :=
  let (r, st') := session_send (Get (base_url S ++ "/health")) st in
  match r with
  | Response status_code _ => (Nat.eqb status_code 200, st')
  | RequestFailed _ => (false, st')
  end.

Definition get_task_status (task_id : string) (st : state)
  : option json * state :=
  let (r, st') := session_send (Get (base_url S ++ "/status/" ++ task_id)) st in
  match r with
  | Response status_code body =>
      if is_error_status status_code then (None, st') else (Some body, st')
  | RequestFailed _ => (None, st')
  end.

Definition list_tasks (st : state) : option json * state :=
  let (r, st') := session_send (Get (base_url S ++ "/tasks")) st in
  match r with
  | Response status_code body =>
      if is_error_status status_code then (None, st') else (Some body, st')
  | RequestFailed _ => (None, st')
  end.

(** How [wait_for_completion] ends. *)
Inductive ending : Type :=
| Returned (status : option json)
| Raised (e : error).

(** The loop of [wait_for_completion]; [None] when [fuel] iterations were
    not enough. *)
Fixpoint wait_loop (fuel : nat) (task_id : string)
  (poll_interval timeout start_time : float) (st : state)
  : option (ending * state) :=
  match fuel with
  | O => None
  | Datatypes.S fuel' =>
      let (t, st1) := time_time st in
      if PrimFloat.ltb (t - start_time) timeout then
        let (status, st2) := get_task_status task_id st1 in
        match status with
        | None => Some (Returned None, st2)
        | Some v =>
            if negb (truthy v) then Some (Returned None, st2)
            else
              match subscript v "status" with
              | inr e => Some (Raised e, st2)
              | inl s =>
                  if equals_str s "completed" then Some (Returned (Some v), st2)
                  else if equals_str s "failed" then Some (Returned (Some v), st2)
                  else
                    wait_loop fuel' task_id poll_interval timeout start_time
                      (time_sleep poll_interval st2)
              end
        end
      else Some (Returned None, st1)
  end.

Definition wait_for_completion (fuel : nat) (task_id : string)
  (poll_interval timeout : float) (st : state) : option (ending * state) :=
  let (start_time, st1) := time_time st in
  wait_loop fuel task_id poll_interval timeout start_time st1.

End Methods.

End Client.

(** ** Starting the server: [start_server.py] *)

Module Starter.

(** What the script finds on the machine: whether [api_server.py] is in
    the working directory, whether [crewai], [fastapi] and [uvicorn] can be
    imported, and the environment variables. *)
Record machine : Type := {
  api_server_file : bool;
  importable : bool;
  environ : dict string
}.

(** [check_requirements()] *)
Definition check_requirements (m : machine) : bool := importable m.

Definition required_vars : list string := ["OPENAI_API_KEY"; "EXA_API_KEY"].

(** [not os.getenv(var)]: the variable is unset or empty. *)
Definition unset_or_empty (env : dict string) (var : string) : bool :=
  match dict_get env var with
  | None => true
  | Some value => String.eqb value ""
  end.

(** The loop of [check_env_vars] over the rest of [required_vars]. *)
Fixpoint collect_missing (env : dict string) (vars : list string)
  (missing_vars : list string) : list string :=
  match vars with
  | [] => missing_vars
  | var :: rest =>
      if unset_or_empty env var
      then collect_missing env rest (missing_vars ++ [var])
      else collect_missing env rest missing_vars
  end.

Definition missing (env : dict string) : list string :=
  collect_missing env required_vars [].

(** [check_env_vars()] *)
Definition check_env_vars (m : machine) : bool :=
  match missing (environ m) with
  | [] => true
  | _ => false
  end.

(** The parsed arguments: [--host], [--port] and [--no-reload]. *)
Record Namespace : Type := {
  host : string;
  port : Z;
  no_reload : bool
}.

(** How [uvicorn.run] ends. *)
Inductive uvicorn_run : Type :=
| Stopped
| KeyboardInterrupt
| Failed (msg : string).

(** How the script ends: [sys.exit(code)], or [main] returns after the
    server was run with these settings. *)
Inductive ending : Type :=
| Exit (code : Z)
| Served (host : string) (port : Z) (reload : bool).

(** [start_server(host, port, reload)]: both handlers only print. *)
Definition start_server (run : uvicorn_run) (host : string) (port : Z)
  (reload : bool) : ending :=
  match run with
  | Stopped => Served host port reload
  | KeyboardInterrupt => Served host port reload
  | Failed _ => Served host port reload
  end.

Definition main (m : machine) (run : uvicorn_run) (args : Namespace) : ending :=
  if negb (api_server_file m) then Exit 1
  else if negb (check_requirements m) then Exit 1
  else if negb (check_env_vars m) then Exit 1
  else start_server run (host args) (port args) (negb (no_reload args)).

End Starter.

(** ** The tutorial: [minimal_parallel_tutorial.py] *)

(** [range(n)] *)
Definition py_range (n : Z) : list Z := map Z.of_nat (seq 0 (Z.to_nat n)).

(** [sum(xs)] *)
Definition py_sum (xs : list Z) : Z := fold_left Z.add xs 0%Z.

(** [cpu_task(name, number)] *)
Definition cpu_task (name : string) (number : Z) : string :=
  let result := py_sum (map (fun i => (i ^ 2)%Z) (py_range number)) in
  name ++ ": " ++ py_str_int result.

(** [slow_task(name, duration)], without the wait *)
Definition slow_task (name : string) : string := "Result from " ++ name.

(** ** The memory explorer: [crewai_memory_explorer.py] *)

Module Explorer.

(** Text that comes from the memory store may hold any character: a
    [str] is the list of its code points. *)
Definition text : Type := list N.

Definition underscore : N := 95.
Definition space : N := 32.
Definition dots : text := [46; 46; 46]%N.

(** The characters [str.strip()] removes. *)
Definition is_space (c : N) : bool :=
  ((9 <=? c) && (c <=? 13) || (28 <=? c) && (c <=? 32)
   || (c =? 133) || (c =? 160) || (c =? 5760)
   || (8192 <=? c) && (c <=? 8202) || (c =? 8232) || (c =? 8233)
   || (c =? 8239) || (c =? 8287) || (c =? 12288))%N.

(** [s.replace("_", " ")] *)
Definition replace_underscores (s : text) : text :=
  map (fun c => if (c =? underscore)%N then space else c) s.

(** [s.lstrip()], [s.rstrip()], [s.strip()] *)
Fixpoint lstrip (s : text) : text :=
  match s with
  | [] => []
  | c :: r => if is_space c then lstrip r else s
  end.

Fixpoint rstrip (s : text) : text :=
  match s with
  | [] => []
  | c :: r =>
      match rstrip r with
      | [] => if is_space c then [] else [c]
      | r' => c :: r'
      end
  end.

Definition strip (s : text) : text := lstrip (rstrip s).

Definition normalize_agent_name (agent_name : text) : text :=
  strip (replace_underscores agent_name).

(** The cells of the tables: a text longer than the column is cut and
    ends in three dots. *)
Definition expected_display (expected_output : text) : text :=
  if Nat.ltb 25 (List.length expected_output)
  then (firstn 22 expected_output ++ dots)%list else expected_output.

Definition result_display (actual_output : text) : text :=
  if Nat.ltb 25 (List.length actual_output)
  then (firstn 22 actual_output ++ dots)%list else actual_output.

Definition task_display (task_desc : text) : text :=
  if Nat.ltb 40 (List.length task_desc)
  then (firstn 37 task_desc ++ dots)%list else task_desc.

Definition sample_content (content : text) : text :=
  if Nat.ltb 50 (List.length content)
  then (firstn 47 content ++ dots)%list else content.

(** [self.stats] *)
Record stats : Type := {
  task_outputs : Z;
  long_term_memories : Z;
  agents : list text;
  total_embeddings : Z
}.

(** The health score of [show_summary_statistics] and its colour. *)
Definition health_score (s : stats) : Z :=
  let score := 0%Z in
  let score := if (0 <? task_outputs s)%Z then (score + 1)%Z else score in
  let score := if (0 <? long_term_memories s)%Z then (score + 1)%Z else score in
  let score := if (0 <? total_embeddings s)%Z then (score + 1)%Z else score in
  let score := if Nat.ltb 0 (List.length (agents s)) then (score + 1)%Z else score in
  score.

Definition max_score : Z := 4.

Definition float_of_int (n : Z) : float := PrimFloat.of_uint63 (Uint63.of_Z n).

Definition health_percentage (s : stats) : float :=
  (float_of_int (health_score s) / float_of_int max_score * 100)%float.

Definition health_color (s : stats) : string :=
  if PrimFloat.ltb (health_percentage s) 50 then "red"
  else if PrimFloat.ltb (health_percentage s) 80 then "yellow"
  else "green".

End Explorer.

(** ** Clocks and crews of the examples *)

Definition clock (readings : list float) (n : nat) : float :=
  nth n readings 0%float.

(** Every crew returns; the clock makes Phase 1 last 1 s, Phase 2 0.5 s
    and the whole run 1.5 s. *)
Definition E_ok : env :=
  {| time_at := clock [100; 100; 101; 101; 101.5; 101.5]%float;
     kickoff := fun _ _ _ => Returns "report" |}.

(** As [E_ok] with another report. *)
Definition E_other : env :=
  {| time_at := clock [100; 100; 101; 101; 101.5; 101.5]%float;
     kickoff := fun _ _ _ => Returns "another report" |}.

(** The first crew kicked off raises. *)
Definition E_boom : env :=
  {| time_at := clock [100; 100]%float;
     kickoff := fun n _ _ =>
       match n with 0 => Raises "rate limit exceeded" | _ => Returns "report" end
  |}.

(** Two requests for the same stock within one second. *)
Definition E_twice : env :=
  {| time_at :=
       clock [100.25; 100.5; 100.5; 100.625; 100.625;
              100.75; 100.875; 100.875; 101.875; 101.875]%float;
     kickoff := fun _ _ _ => Returns "report" |}.


Definition reliance (mode : string) : AnalysisRequest :=
  {| stock := "RELIANCE"; execution_mode := mode |}.

(** A fresh process whose clock has been read [n] times. *)
Definition at_tick (n : nat) : world :=
  {| ticks := n; kicks := []; task_results := []; background := [] |}.



(** The state of a server whose only task is stuck: the first crew of
    RELIANCE_100 raised. *)
Definition w_stuck : world :=
  after_all E_boom [PostAnalyze (reliance "parallel"); RunBackground]
    initial_world.

(** The state of a server whose only task has completed. *)
Definition w_done : world :=
  after_all E_twice [PostAnalyze (reliance "sequential"); RunBackground]
    initial_world.

(** A client of the stuck server; its clock passes the timeout at the
    fourth reading. *)
Definition S_stuck : Client.setting :=
  {| Client.base_url := "http://localhost:8000";
     Client.now := clock [0; 5; 10; 700]%float;
     Client.send := fun _ _ => Client.status_reply w_stuck "RELIANCE_100" |}.

(** A client of the server whose task has completed. *)
Definition S_done : Client.setting :=
  {| Client.base_url := "http://localhost:8000";
     Client.now := clock [0; 5]%float;
     Client.send := fun _ _ => Client.status_reply w_done "RELIANCE_100" |}.



Definition started (stock mode task_id : string) : AnalysisResponse :=
  {| ar_status := "started";
     ar_message := "Analysis started for " ++ stock ++ " in " ++ mode ++ " mode";
     ar_execution_time := None; ar_parallel_time := None;
     ar_analysis_time := None; ar_time_saved := None;
     ar_task_id := Some task_id |}.


(** * Properties *)

(** ** Dictionaries *)

Section PyDictFacts.
Context {V : Type}.
Implicit Types (d : dict V) (k : string) (v : V).

Lemma dict_get_set_same d k v : dict_get (dict_set d k v) k = Some v.
Proof.
  induction d as [|[k' v'] r IH]; simpl.
  - now rewrite String.eqb_refl.
  - destruct (String.eqb k' k) eqn:Hk; simpl.
    + now rewrite String.eqb_refl.
    + now rewrite Hk.
Qed.

Lemma dict_get_set_other d k k0 v :
  k0 <> k -> dict_get (dict_set d k v) k0 = dict_get d k0.
Proof.
  intros Hne. induction d as [|[k' v'] r IH]; simpl.
  - apply String.eqb_neq in Hne. rewrite String.eqb_sym. now rewrite Hne.
  - destruct (String.eqb k' k) eqn:Hk; simpl.
    + apply String.eqb_eq in Hk. subst k'.
      assert (String.eqb k k0 = false) as -> by (apply String.eqb_neq; congruence).
      reflexivity.
    + now rewrite IH.
Qed.

Lemma dict_set_twice d k v1 v2 :
  dict_set (dict_set d k v1) k v2 = dict_set d k v2.
Proof.
  induction d as [|[k' v'] r IH]; simpl.
  - now rewrite String.eqb_refl.
  - destruct (String.eqb k' k) eqn:Hk; simpl.
    + now rewrite String.eqb_refl.
    + now rewrite Hk, IH.
Qed.

Lemma dict_get_remove_same d k : dict_get (dict_remove d k) k = None.
Proof.
  induction d as [|[k' v'] r IH]; simpl; [reflexivity|].
  destruct (String.eqb k' k) eqn:Hk; simpl; [exact IH|].
  now rewrite Hk.
Qed.

Lemma dict_get_remove_other d k k0 :
  k0 <> k -> dict_get (dict_remove d k) k0 = dict_get d k0.
Proof.
  intros Hne. induction d as [|[k' v'] r IH]; simpl; [reflexivity|].
  destruct (String.eqb k' k) eqn:Hk; simpl.
  - apply String.eqb_eq in Hk. subst k'.
    assert (String.eqb k k0 = false) as -> by (apply String.eqb_neq; congruence).
    exact IH.
  - now rewrite IH.
Qed.

Lemma dict_keys_set d k v k0 :
  In k0 (dict_keys (dict_set d k v)) <-> k0 = k \/ In k0 (dict_keys d).
Proof.
  unfold dict_keys. induction d as [|[k' v'] r IH]; simpl.
  - intuition.
  - destruct (String.eqb k' k) eqn:Hk; simpl.
    + apply String.eqb_eq in Hk. subst k'. intuition.
    + rewrite IH. intuition.
Qed.

Lemma dict_keys_remove d k k0 :
  In k0 (dict_keys (dict_remove d k)) -> In k0 (dict_keys d).
Proof.
  unfold dict_keys. induction d as [|[k' v'] r IH]; simpl; [tauto|].
  destruct (String.eqb k' k); simpl; intuition.
Qed.

(** Keys stay unique under assignment and deletion. *)
Lemma dict_set_NoDup d k v :
  NoDup (dict_keys d) -> NoDup (dict_keys (dict_set d k v)).
Proof.
  induction d as [|[k' v'] r IH]; simpl; intros Hnd.
  - constructor; [intros []|constructor].
  - inversion Hnd as [|? ? Hnot Hr]; subst.
    destruct (String.eqb k' k) eqn:Hk; simpl.
    + apply String.eqb_eq in Hk. subst k'. now constructor.
    + constructor; [|now apply IH].
      intros Hin. apply dict_keys_set in Hin as [->|Hin]; [|now apply Hnot].
      now rewrite String.eqb_refl in Hk.
Qed.

Lemma dict_remove_NoDup d k :
  NoDup (dict_keys d) -> NoDup (dict_keys (dict_remove d k)).
Proof.
  induction d as [|[k' v'] r IH]; simpl; intros Hnd; [constructor|].
  inversion Hnd as [|? ? Hnot Hr]; subst.
  destruct (String.eqb k' k); simpl; [now apply IH|].
  constructor; [|now apply IH].
  intros Hin. now apply Hnot, (dict_keys_remove r k).
Qed.

Lemma dict_set_Forall (P : string * V -> Prop) d k v :
  Forall P d -> P (k, v) -> Forall P (dict_set d k v).
Proof.
  intros Hd Hv. induction Hd as [|[k' v'] r Hx Hr IH]; simpl.
  - now constructor.
  - destruct (String.eqb k' k); now constructor.
Qed.

Lemma dict_remove_Forall (P : string * V -> Prop) d k :
  Forall P d -> Forall P (dict_remove d k).
Proof.
  intros Hd. induction Hd as [|[k' v'] r Hx Hr IH]; simpl; [constructor|].
  destruct (String.eqb k' k); [exact IH|now constructor].
Qed.

Lemma dict_get_Forall (P : string * V -> Prop) d k v :
  Forall P d -> dict_get d k = Some v -> exists k', P (k', v).
Proof.
  intros Hd. induction Hd as [|[k' v'] r Hx Hr IH]; simpl; [discriminate|].
  destruct (String.eqb k' k); [|exact IH].
  intros [= <-]. now exists k'.
Qed.

End PyDictFacts.

(** ** Floats *)

(** IEEE multiplication commutes, so [parallel_time * 2] of the code is the
    [2 * parallel_time] of the prose. *)
Lemma float_mul_comm (x y : float) : (x * y)%float = (y * x)%float.
Proof.
  rewrite <- (SF2Prim_Prim2SF (x * y)), <- (SF2Prim_Prim2SF (y * x)).
  rewrite !mul_spec. f_equal.
  unfold SF64mul, SFmul.
  destruct (Prim2SF x) as [sx|sx| |sx mx ex], (Prim2SF y) as [sy|sy| |sy my ey];
    try reflexivity; try (now rewrite xorb_comm).
  now rewrite xorb_comm, Pos.mul_comm, Z.add_comm.
Qed.

(** ** The background runner *)

Ltac run_monad :=
  unfold run_analysis_background, run_and_complete, record_running,
    run_parallel_execution, run_sequential_execution, run_crew_task,
    submit, future_result, crew_kickoff, registry_set, registry_getitem,
    registry_delitem, getitem, get_registry, put_registry, add_task,
    time_time, bind, ret, raise; simpl.

(** What the background runner leaves in the registry: the record of its
    task, running when a crew raised and completed otherwise.  The queue is
    not touched, and only a crew's exception can come out. *)
Lemma run_analysis_background_registry E task_id stock mode w :
  let (r, w') := run_analysis_background E task_id stock mode w in
  background w' = background w /\
  exists record,
    task_results w' = dict_set (task_results w) task_id record /\
    ((exists msg, r = Raise (CrewError msg)) /\
       record = running_record (time_at E (ticks w)) stock mode
     \/ r = Ok tt /\ dict_get record "status" = Some (PStr "completed")
        /\ written_record record).
Proof.
  run_monad.
  destruct (String.eqb mode "parallel"); simpl.
  - destruct (kickoff E (List.length (kicks w)) financial_crew _); simpl.
    2:{ destruct (kickoff E _ news_crew _); simpl; split; trivial;
        eexists; (split; [reflexivity|]); left; eauto. }
    destruct (kickoff E _ news_crew _); simpl.
    2:{ split; trivial; eexists; (split; [reflexivity|]); left; eauto. }
    destruct (kickoff E _ analysis_crew _); simpl.
    2:{ split; trivial; eexists; (split; [reflexivity|]); left; eauto. }
    split; trivial. eexists. rewrite dict_set_twice. split; [reflexivity|].
    right. repeat split. constructor.
  - destruct (kickoff E _ sequential_crew _); simpl.
    2:{ split; trivial; eexists; (split; [reflexivity|]); left; eauto. }
    split; trivial. eexists. rewrite dict_set_twice. split; [reflexivity|].
    right. repeat split. constructor.
Qed.

(** C1. The background runner has no handler around the coordinators: when
    [run_analysis_background] ends by an exception, that exception is a
    crew's and has reached the caller, and the record of the task is still
    the running one, with no error message; the status view of the task
    says "running" with a null error. *)
Theorem background_failure_escapes E task_id stock mode w e w' :
  run_analysis_background E task_id stock mode w = (Raise e, w') ->
  (exists msg, e = CrewError msg) /\
  dict_get (task_results w') task_id =
    Some (running_record (time_at E (ticks w)) stock mode) /\
  status_of w' task_id = Some (PStr "running") /\
  fst (get_task_status task_id w') =
    Ok {| ts_task_id := task_id; ts_status := "running"; ts_result := None;
          ts_execution_time := None; ts_error := None |}.
Proof.
  intros Hrun.
  pose proof (run_analysis_background_registry E task_id stock mode w) as H.
  rewrite Hrun in H.
  destruct H as (_ & record & Hreg & [[[msg [= ->]] ->]|[[=] _]]).
  assert (dict_get (task_results w') task_id =
            Some (running_record (time_at E (ticks w)) stock mode)) as Hget
    by (rewrite Hreg; apply dict_get_set_same).
  split; [eauto|]. split; [exact Hget|]. split.
  - unfold status_of. now rewrite Hget.
  - unfold get_task_status. run_monad. now rewrite Hget.
Qed.

Lemma background_failure_escapes_witness :
  (exists msg, CrewError "rate limit exceeded" = CrewError msg) /\
  dict_get
    (task_results
       (snd (run_analysis_background E_boom "RELIANCE_100" "RELIANCE"
               "parallel" initial_world))) "RELIANCE_100" =
    Some (running_record 100 "RELIANCE" "parallel") /\
  status_of
    (snd (run_analysis_background E_boom "RELIANCE_100" "RELIANCE"
            "parallel" initial_world)) "RELIANCE_100" = Some (PStr "running") /\
  fst (get_task_status "RELIANCE_100"
         (snd (run_analysis_background E_boom "RELIANCE_100" "RELIANCE"
                 "parallel" initial_world))) =
    Ok {| ts_task_id := "RELIANCE_100"; ts_status := "running";
          ts_result := None; ts_execution_time := None; ts_error := None |}.
Proof.
  apply (background_failure_escapes E_boom "RELIANCE_100" "RELIANCE" "parallel"
           initial_world).
  reflexivity.
Defined.



(** The synchronous endpoint reports the same figure. *)
Lemma analyze_sync_time_saved E request w response w' :
  execution_mode request = "parallel" ->
  analyze_sync E request w = (Ok response, w') ->
  exists execution_time parallel_time analysis_time,
    ar_execution_time response = Some execution_time
    /\ ar_parallel_time response = Some parallel_time
    /\ ar_analysis_time response = Some analysis_time
    /\ ar_time_saved response =
         Some (2 * parallel_time + analysis_time - execution_time)%float.
Proof.
  intros Hmode. unfold analyze_sync. rewrite Hmode. run_monad.
  destruct (kickoff E (List.length (kicks w)) financial_crew _); simpl.
  2:{ destruct (kickoff E _ news_crew _); discriminate. }
  destruct (kickoff E _ news_crew _); simpl; [|discriminate].
  destruct (kickoff E _ analysis_crew _); simpl; [|discriminate].
  intros [= <- <-]. simpl. do 3 eexists.
  repeat (split; [reflexivity|]). now rewrite (float_mul_comm 2).
Qed.

(** ** Starting a task *)

(** [start_analysis] reads the clock and queues the task; the registry is
    neither read nor written. *)
Lemma start_analysis_registry E request w :
  task_results (snd (start_analysis E request w)) = task_results w.
Proof.
  unfold start_analysis, py_int. run_monad.
  destruct (Prim2SF (time_at E (ticks w))); reflexivity.
Qed.

(** C2, as the code has it. A start never fails on a task id that is
    already there: the first write of the background runner returns
    normally for every task id and leaves a fresh running record under it,
    whatever record the id had; the records of the other ids are as
    before, and [start_analysis] does not touch the registry at all. *)
Theorem start_replaces_record E task_id stock mode w :
  exists w',
    record_running E task_id stock mode w = (Ok (time_at E (ticks w)), w')
    /\ dict_get (task_results w') task_id =
         Some (running_record (time_at E (ticks w)) stock mode)
    /\ status_of w' task_id = Some (PStr "running")
    /\ (forall other, String.eqb other task_id = false ->
          dict_get (task_results w') other = dict_get (task_results w) other)
    /\ (forall request,
          task_results (snd (start_analysis E request w)) = task_results w).
Proof.
  eexists. split; [reflexivity|]. simpl.
  assert (forall r, dict_get (dict_set (task_results w) task_id r) task_id = Some r)
    as Hsame by (intros; apply dict_get_set_same).
  split; [apply Hsame|]. split.
  - unfold status_of; simpl. now rewrite Hsame.
  - split.
    + intros other Hne. apply dict_get_set_other. now apply String.eqb_neq.
    + intros. apply start_analysis_registry.
Qed.

(** C2 fails as stated: RELIANCE is analysed and completes; a second
    request within the same second is accepted under the same task id, and
    the start of its background run returns normally and replaces the
    completed record. *)
Lemma second_start_overwrites :
  let w1 :=
    after_all E_twice [PostAnalyze (reliance "sequential"); RunBackground]
      initial_world in
  status_of w1 "RELIANCE_100" = Some (PStr "completed")
  /\ fst (start_analysis E_twice (reliance "parallel") w1) =
       Ok {| ar_status := "started";
             ar_message := "Analysis started for RELIANCE in parallel mode";
             ar_execution_time := None; ar_parallel_time := None;
             ar_analysis_time := None; ar_time_saved := None;
             ar_task_id := Some "RELIANCE_100" |}
  /\ fst (record_running E_twice "RELIANCE_100" "RELIANCE" "parallel" w1) =
       Ok 100.75%float
  /\ task_results
       (snd (record_running E_twice "RELIANCE_100" "RELIANCE" "parallel" w1))
     <> task_results w1.
Proof.
  cbv zeta. repeat split; try reflexivity.
  intros H. vm_compute in H. discriminate H.
Qed.

(** C3, as the code has it. Accepting a request leaves the registry as it
    was and only queues the background task, under the task id of the
    response; no crew has been kicked off. The running record is written
    when that task is run: from any state with the task at the head of the
    queue, the run leaves a record under its id, whether it returns or
    raises. *)
Theorem record_written_by_background E request w response w1 :
  start_analysis E request w = (Ok response, w1) ->
  exists task_id,
    ar_task_id response = Some task_id
    /\ task_results w1 = task_results w
    /\ kicks w1 = kicks w
    /\ background w1 =
         (background w ++
           [{| bg_task_id := task_id; bg_stock := stock request;
               bg_execution_mode := execution_mode request |}])%list
    /\ (forall w2 rest,
          background w2 =
            {| bg_task_id := task_id; bg_stock := stock request;
               bg_execution_mode := execution_mode request |} :: rest ->
          dict_mem (task_results (after E RunBackground w2)) task_id = true).
Proof.
  unfold start_analysis, py_int. run_monad.
  destruct (Prim2SF (time_at E (ticks w))) as [s|s| |s m e]; simpl;
    try discriminate; intros [= <- <-]; simpl;
    (eexists; repeat (split; [reflexivity|]));
    intros w2 rest Hq; unfold after, handle, run_next_background;
    rewrite Hq; simpl;
    match goal with
    | |- context [run_analysis_background E ?i ?s ?m ?w] =>
        pose proof (run_analysis_background_registry E i s m w) as H;
        destruct (run_analysis_background E i s m w) as [r w3]
    end;
    destruct H as (_ & record & Hreg & _); simpl;
    unfold dict_mem; now rewrite Hreg, dict_get_set_same.
Qed.

Lemma record_written_by_background_witness :
  exists task_id,
    Some "RELIANCE_100" = Some task_id
    /\ task_results (snd (start_analysis E_ok (reliance "parallel") initial_world))
       = task_results initial_world
    /\ kicks (snd (start_analysis E_ok (reliance "parallel") initial_world))
       = kicks initial_world
    /\ background (snd (start_analysis E_ok (reliance "parallel") initial_world))
       = (background initial_world ++
           [{| bg_task_id := task_id; bg_stock := stock (reliance "parallel");
               bg_execution_mode := execution_mode (reliance "parallel") |}])%list
    /\ (forall w2 rest,
          background w2 =
            {| bg_task_id := task_id; bg_stock := stock (reliance "parallel");
               bg_execution_mode := execution_mode (reliance "parallel") |}
            :: rest ->
          dict_mem (task_results (after E_ok RunBackground w2)) task_id = true).
Proof.
  apply (record_written_by_background E_ok (reliance "parallel") initial_world
           {| ar_status := "started";
              ar_message := "Analysis started for RELIANCE in parallel mode";
              ar_execution_time := None; ar_parallel_time := None;
              ar_analysis_time := None; ar_time_saved := None;
              ar_task_id := Some "RELIANCE_100" |}).
  reflexivity.
Defined.

(** C3 fails as stated: the request is accepted with task id RELIANCE_100,
    and a status query for that id, before the background task has run,
    finds no record. *)
Lemma accepted_task_has_no_record :
  fst (start_analysis E_ok (reliance "parallel") initial_world) =
    Ok {| ar_status := "started";
          ar_message := "Analysis started for RELIANCE in parallel mode";
          ar_execution_time := None; ar_parallel_time := None;
          ar_analysis_time := None; ar_time_saved := None;
          ar_task_id := Some "RELIANCE_100" |}
  /\ get_task_status "RELIANCE_100"
       (snd (start_analysis E_ok (reliance "parallel") initial_world)) =
     (Raise (KeyError "RELIANCE_100"),
      snd (start_analysis E_ok (reliance "parallel") initial_world)).
Proof.
  split; reflexivity.
Qed.

(** ** Unknown task ids *)

Lemma delete_task_removes task_id w0 msg w :
  delete_task task_id w0 = (Ok msg, w) ->
  dict_get (task_results w) task_id = None.
Proof.
  unfold delete_task. run_monad.
  destruct (dict_mem (task_results w0) task_id); simpl; [|discriminate].
  intros [= _ <-]. simpl. apply dict_get_remove_same.
Qed.

(** C4. For a task id that is not in the registry, or has just been
    deleted, [get_task_status] and [delete_task] end by the [KeyError] of
    the dictionary access, not by an [HTTPException]: the client is
    answered 500, not a 404. *)
Theorem unknown_task_raises_key_error task_id w :
  dict_get (task_results w) task_id = None
  \/ (exists w0 msg, delete_task task_id w0 = (Ok msg, w)) ->
  get_task_status task_id w = (Raise (KeyError task_id), w)
  /\ delete_task task_id w = (Raise (KeyError task_id), w)
  /\ http_status (fst (get_task_status task_id w)) = 500
  /\ http_status (fst (delete_task task_id w)) = 500.
Proof.
  intros H.
  assert (dict_get (task_results w) task_id = None) as Hnone.
  { destruct H as [H|(w0 & msg & H)]; [exact H|].
    exact (delete_task_removes _ _ _ _ H). }
  assert (dict_mem (task_results w) task_id = false) as Hmem
    by (unfold dict_mem; now rewrite Hnone).
  unfold get_task_status, delete_task. run_monad.
  rewrite Hnone, Hmem. simpl. repeat split; reflexivity.
Qed.

Lemma unknown_task_raises_key_error_witness :
  get_task_status "GHOST_1" initial_world = (Raise (KeyError "GHOST_1"), initial_world)
  /\ delete_task "GHOST_1" initial_world = (Raise (KeyError "GHOST_1"), initial_world)
  /\ http_status (fst (get_task_status "GHOST_1" initial_world)) = 500
  /\ http_status (fst (delete_task "GHOST_1" initial_world)) = 500.
Proof.
  apply (unknown_task_raises_key_error "GHOST_1" initial_world).
  left. reflexivity.
Defined.

(** ** What the coordinators return *)

(** C6, as the code has it. When its crews return, [run_parallel_execution]
    returns the pair of the durations of Phase 1 and of Phase 2, and
    [run_sequential_execution] returns the pair of its duration and the
    integer 0; what the crews returned is not part of either. *)
Theorem coordinators_return_timings E stock_input w a b c d :
  kickoff E (List.length (kicks w)) financial_crew stock_input = Returns a ->
  kickoff E (List.length (kicks w) + 1) news_crew stock_input = Returns b ->
  kickoff E (List.length (kicks w) + 2) analysis_crew stock_input = Returns c ->
  kickoff E (List.length (kicks w)) sequential_crew stock_input = Returns d ->
  fst (run_parallel_execution E stock_input w) =
    Ok ((time_at E (ticks w + 1) - time_at E (ticks w))%float,
        (time_at E (ticks w + 3) - time_at E (ticks w + 2))%float)
  /\ fst (run_sequential_execution E stock_input w) =
       Ok ((time_at E (ticks w + 1) - time_at E (ticks w))%float, 0%Z).
Proof.
  intros Ha Hb Hc Hd. run_monad.
  rewrite Ha, Hd; simpl.
  rewrite !length_app; simpl. rewrite Hb; simpl.
  rewrite !length_app; simpl.
  replace (List.length (kicks w) + 1 + 1)%nat with (List.length (kicks w) + 2)%nat by lia.
  rewrite Hc; simpl.
  replace (ticks w + 1)%nat with (S (ticks w)) by lia.
  replace (ticks w + 2)%nat with (S (S (ticks w))) by lia.
  replace (ticks w + 3)%nat with (S (S (S (ticks w)))) by lia.
  split; reflexivity.
Qed.

Lemma coordinators_return_timings_witness :
  fst (run_parallel_execution E_ok [("stock", PStr "RELIANCE")] (at_tick 1)) =
    Ok (1%float, 0.5%float)
  /\ fst (run_sequential_execution E_ok [("stock", PStr "RELIANCE")] (at_tick 1)) =
       Ok (1%float, 0%Z).
Proof.
  apply (coordinators_return_timings E_ok [("stock", PStr "RELIANCE")] (at_tick 1)
           "report" "report" "report" "report"); reflexivity.
Defined.

(** C6 fails as stated: with the same clock, crews that return "report"
    and crews that return "another report" give the same return value of
    [run_sequential_execution] and of [run_parallel_execution], a pair of
    numbers; no reading of the return value yields the crew's result. *)
Lemma coordinators_drop_the_result :
  fst (crew_kickoff E_ok sequential_crew [("stock", PStr "RELIANCE")] (at_tick 1))
    = Ok "report"
  /\ fst (crew_kickoff E_other sequential_crew [("stock", PStr "RELIANCE")] (at_tick 1))
    = Ok "another report"
  /\ fst (run_sequential_execution E_ok [("stock", PStr "RELIANCE")] (at_tick 1))
    = Ok (1%float, 0%Z)
  /\ fst (run_sequential_execution E_other [("stock", PStr "RELIANCE")] (at_tick 1))
    = Ok (1%float, 0%Z)
  /\ fst (run_parallel_execution E_ok [("stock", PStr "RELIANCE")] (at_tick 1))
    = Ok (1%float, 0.5%float)
  /\ fst (run_parallel_execution E_other [("stock", PStr "RELIANCE")] (at_tick 1))
    = Ok (1%float, 0.5%float)
  /\ ~ (exists proj : result (float * Z) -> string,
          proj (fst (run_sequential_execution E_ok [("stock", PStr "RELIANCE")] (at_tick 1))) = "report"
          /\ proj (fst (run_sequential_execution E_other [("stock", PStr "RELIANCE")] (at_tick 1))) = "another report")
  /\ ~ (exists proj : result (float * float) -> string,
          proj (fst (run_parallel_execution E_ok [("stock", PStr "RELIANCE")] (at_tick 1))) = "report"
          /\ proj (fst (run_parallel_execution E_other [("stock", PStr "RELIANCE")] (at_tick 1))) = "another report").
Proof.
  repeat (split; [reflexivity|]).
  split; intros (proj & H1 & H2); vm_compute in H1, H2; rewrite H1 in H2; discriminate H2.
Qed.

(** ** The execution mode *)

(** C10. For every [execution_mode] other than the string "parallel", the
    background runner and the synchronous endpoint kick off the sequential
    crew and nothing else; they return unless that crew raises, and then
    the exception is the crew's. [start_analysis] raises for such a mode
    only where it raises for "parallel" too: no mode is rejected. *)
Theorem other_modes_run_sequential E task_id stock mode w :
  mode <> "parallel" ->
  kicks (snd (run_analysis_background E task_id stock mode w)) =
    (kicks w ++ [(sequential_crew, [("stock", PStr stock)])])%list
  /\ kicks (snd (analyze_sync E {| stock := stock; execution_mode := mode |} w)) =
    (kicks w ++ [(sequential_crew, [("stock", PStr stock)])])%list
  /\ fst (run_analysis_background E task_id stock mode w) =
       match kickoff E (List.length (kicks w)) sequential_crew
               [("stock", PStr stock)] with
       | Returns _ => Ok tt
       | Raises msg => Raise (CrewError msg)
       end
  /\ fst (analyze_sync E {| stock := stock; execution_mode := mode |} w) =
       match kickoff E (List.length (kicks w)) sequential_crew
               [("stock", PStr stock)] with
       | Returns _ =>
           Ok {| ar_status := "completed";
                 ar_message := "Analysis completed for " ++ stock;
                 ar_execution_time :=
                   Some (time_at E (ticks w + 3) - time_at E (ticks w))%float;
                 ar_parallel_time := None; ar_analysis_time := None;
                 ar_time_saved := None; ar_task_id := None |}
       | Raises msg => Raise (CrewError msg)
       end
  /\ (forall e,
        fst (start_analysis E {| stock := stock; execution_mode := mode |} w)
          = Raise e ->
        fst (start_analysis E {| stock := stock; execution_mode := "parallel" |} w)
          = Raise e).
Proof.
  intros Hmode. apply String.eqb_neq in Hmode.
  unfold analyze_sync. run_monad. rewrite Hmode. simpl.
  replace (ticks w + 3)%nat with (S (S (S (ticks w)))) by lia.
  destruct (kickoff E (List.length (kicks w)) sequential_crew _); simpl;
    repeat (split; [reflexivity|]);
    unfold start_analysis, py_int; run_monad;
    destruct (Prim2SF (time_at E (ticks w))); simpl; intros err;
    try discriminate; trivial.
Qed.

Lemma other_modes_run_sequential_witness :
  kicks (snd (run_analysis_background E_ok "RELIANCE_100" "RELIANCE" "PARALLEL"
                initial_world)) =
    (kicks initial_world ++ [(sequential_crew, [("stock", PStr "RELIANCE")])])%list
  /\ kicks (snd (analyze_sync E_ok
                   {| stock := "RELIANCE"; execution_mode := "PARALLEL" |}
                   initial_world)) =
    (kicks initial_world ++ [(sequential_crew, [("stock", PStr "RELIANCE")])])%list
  /\ fst (run_analysis_background E_ok "RELIANCE_100" "RELIANCE" "PARALLEL"
            initial_world) =
       match kickoff E_ok (List.length (kicks initial_world)) sequential_crew
               [("stock", PStr "RELIANCE")] with
       | Returns _ => Ok tt
       | Raises msg => Raise (CrewError msg)
       end
  /\ fst (analyze_sync E_ok
            {| stock := "RELIANCE"; execution_mode := "PARALLEL" |}
            initial_world) =
       match kickoff E_ok (List.length (kicks initial_world)) sequential_crew
               [("stock", PStr "RELIANCE")] with
       | Returns _ =>
           Ok {| ar_status := "completed";
                 ar_message := "Analysis completed for " ++ "RELIANCE";
                 ar_execution_time :=
                   Some (time_at E_ok (ticks initial_world + 3)
                         - time_at E_ok (ticks initial_world))%float;
                 ar_parallel_time := None; ar_analysis_time := None;
                 ar_time_saved := None; ar_task_id := None |}
       | Raises msg => Raise (CrewError msg)
       end
  /\ (forall e,
        fst (start_analysis E_ok
               {| stock := "RELIANCE"; execution_mode := "PARALLEL" |}
               initial_world) = Raise e ->
        fst (start_analysis E_ok
               {| stock := "RELIANCE"; execution_mode := "parallel" |}
               initial_world) = Raise e).
Proof.
  apply (other_modes_run_sequential E_ok "RELIANCE_100" "RELIANCE" "PARALLEL"
           initial_world).
  discriminate.
Defined.

(** ** Phase 2 comes after the join *)









(** ** The registry under the requests *)

Lemma summaries_world items w : snd (summaries items w) = w.
Proof.
  induction items as [|[task_id data] rest IH]; simpl; [reflexivity|].
  unfold bind, getitem.
  destruct (dict_get data "status"); simpl; [|reflexivity].
  specialize IH. destruct (summaries rest w) as [[tail|e] w1]; simpl in *;
    now subst.
Qed.

Lemma get_task_status_world task_id w : snd (get_task_status task_id w) = w.
Proof.
  unfold get_task_status, as_str, as_opt_dict, as_opt_float, as_opt_str.
  run_monad.
  destruct (dict_get (task_results w) task_id) as [data|]; simpl; [|reflexivity].
  destruct (dict_get data "status") as [[s|f|d]|]; simpl; try reflexivity.
  destruct (dict_get data "results") as [[s1|f1|d1]|]; simpl; try reflexivity;
    (destruct (dict_get data "execution_time") as [[s2|f2|d2]|]; simpl;
     try reflexivity;
     destruct (dict_get data "error") as [[s3|f3|d3]|]; reflexivity).
Qed.

Lemma analyze_sync_registry E request w :
  task_results (snd (analyze_sync E request w)) = task_results w.
Proof.
  unfold analyze_sync. run_monad.
  destruct (String.eqb (execution_mode request) "parallel"); simpl.
  - destruct (kickoff E (List.length (kicks w)) financial_crew _); simpl;
      destruct (kickoff E _ news_crew _); simpl; try reflexivity.
    destruct (kickoff E _ analysis_crew _); reflexivity.
  - destruct (kickoff E _ sequential_crew _); reflexivity.
Qed.

(** The three ways a step leaves the registry: as it was, without the
    deleted task, or with the record of the background task set to a
    running or a completed one. *)
Lemma after_registry E o w :
  task_results (after E o w) = task_results w
  \/ (exists task_id,
        o = DeleteTask task_id
        /\ task_results (after E o w) = dict_remove (task_results w) task_id)
  \/ (o = RunBackground
      /\ exists t rest record,
           background w = t :: rest
           /\ task_results (after E o w) =
                dict_set (task_results w) (bg_task_id t) record
           /\ written_record record
           /\ (dict_get record "status" = Some (PStr "running")
               \/ dict_get record "status" = Some (PStr "completed"))).
Proof.
  unfold after. destruct o as [| |request| |task_id| |task_id|request]; simpl.
  - now left.
  - now left.
  - left. unfold bind.
    pose proof (start_analysis_registry E request w) as H.
    destruct (start_analysis E request w) as [[r|e] w1]; exact H.
  - unfold run_next_background.
    destruct (background w) as [|t rest] eqn:Hq; [now left|].
    right; right. split; [reflexivity|].
    match goal with
    | |- context [run_analysis_background E ?i ?s ?m ?w0] =>
        pose proof (run_analysis_background_registry E i s m w0) as H;
        destruct (run_analysis_background E i s m w0) as [r w1]
    end.
    destruct H as (_ & record & Hreg & Hrec). simpl in *.
    exists t, rest, record. split; [reflexivity|]. split; [exact Hreg|].
    destruct Hrec as [[_ ->]|(_ & Hst & Hw)].
    + split; [constructor|now left].
    + split; [exact Hw|now right].
  - left. unfold bind.
    pose proof (get_task_status_world task_id w) as H.
    destruct (get_task_status task_id w) as [[r|e] w1]; simpl in *; now subst.
  - left. unfold list_tasks, get_registry, bind.
    pose proof (summaries_world (task_results w) w) as H.
    destruct (summaries (task_results w) w) as [[r|e] w1]; simpl in *; now subst.
  - unfold delete_task. run_monad.
    destruct (dict_mem (task_results w) task_id); simpl; [|now left].
    right; left. now exists task_id.
  - left. unfold bind.
    pose proof (analyze_sync_registry E request w) as H.
    destruct (analyze_sync E request w) as [[r|e] w1]; exact H.
Qed.

(** In every state the server reaches, the task ids of the registry are
    distinct and every record is one the background runner wrote. *)
Lemma reachable_registry E w :
  reachable E w ->
  NoDup (dict_keys (task_results w)) /\ registry_written (task_results w).
Proof.
  induction 1 as [|o w Hw [Hnd Hwr]]; simpl.
  - split; constructor.
  - destruct (after_registry E o w)
      as [->|[(task_id & _ & ->)|(_ & t & rest & record & _ & -> & Hrec & _)]].
    + now split.
    + split; [now apply dict_remove_NoDup|now apply dict_remove_Forall].
    + split; [now apply dict_set_NoDup|now apply dict_set_Forall].
Qed.




(** ** The status view *)

(** C9, as the code has it. In every state the server reaches, the status
    view of a task has a null result, whatever the status; its error
    message is present exactly when the status is "failed"; and a completed
    task comes with its execution time. *)
Theorem status_view_of_served_task E w task_id view w' :
  reachable E w ->
  get_task_status task_id w = (Ok view, w') ->
  ts_result view = None
  /\ (ts_error view <> None <-> ts_status view = "failed")
  /\ (ts_status view = "completed" ->
      exists t, ts_execution_time view = Some t).
Proof.
  intros Hw. destruct (reachable_registry E w Hw) as [_ Hwr].
  unfold get_task_status. run_monad.
  destruct (dict_get (task_results w) task_id) as [data|] eqn:Hget; simpl;
    [|discriminate].
  destruct (dict_get_Forall _ _ _ _ Hwr Hget) as [k Hdata]. simpl in Hdata.
  destruct Hdata; simpl; intros [= <- _]; simpl;
    (split; [reflexivity|]); (split; [split; [congruence|discriminate]|]);
    try discriminate; eauto.
Qed.

Lemma status_view_of_served_task_witness :
  ts_result
    {| ts_task_id := "RELIANCE_100"; ts_status := "completed";
       ts_result := None; ts_execution_time := Some 0.125%float;
       ts_error := None |} = None
  /\ (ts_error
        {| ts_task_id := "RELIANCE_100"; ts_status := "completed";
           ts_result := None; ts_execution_time := Some 0.125%float;
           ts_error := None |} <> None <->
      ts_status
        {| ts_task_id := "RELIANCE_100"; ts_status := "completed";
           ts_result := None; ts_execution_time := Some 0.125%float;
           ts_error := None |} = "failed")
  /\ (ts_status
        {| ts_task_id := "RELIANCE_100"; ts_status := "completed";
           ts_result := None; ts_execution_time := Some 0.125%float;
           ts_error := None |} = "completed" ->
      exists t,
        ts_execution_time
          {| ts_task_id := "RELIANCE_100"; ts_status := "completed";
             ts_result := None; ts_execution_time := Some 0.125%float;
             ts_error := None |} = Some t).
Proof.
  apply (status_view_of_served_task E_twice
           (after E_twice RunBackground
              (after E_twice (PostAnalyze (reliance "sequential")) initial_world))
           "RELIANCE_100" _
           (after E_twice RunBackground
              (after E_twice (PostAnalyze (reliance "sequential")) initial_world))).
  - apply reachable_after, reachable_after, reachable_initial.
  - reflexivity.
Defined.

(** C9 fails as stated: the task of RELIANCE has completed, and its status
    view carries no result. *)
Lemma completed_task_has_null_result :
  fst (get_task_status "RELIANCE_100"
         (after_all E_twice [PostAnalyze (reliance "sequential"); RunBackground]
            initial_world)) =
    Ok {| ts_task_id := "RELIANCE_100"; ts_status := "completed";
          ts_result := None; ts_execution_time := Some 0.125%float;
          ts_error := None |}.
Proof.
  reflexivity.
Qed.

(** * More of the code *)

(** ** Phase 1 and Phase 2 come to an end *)






(** ** Listing and deleting tasks *)


Lemma dict_keys_remove_filter {V} (d : dict V) k :
  dict_keys (dict_remove d k) =
    filter (fun k' => negb (String.eqb k' k)) (dict_keys d).
Proof.
  unfold dict_keys. induction d as [|[k' v'] r IH]; simpl; [reflexivity|].
  destruct (String.eqb k' k); simpl; now rewrite IH.
Qed.

(** On records the server wrote, the listing goes through every task. *)
Lemma summaries_written d w :
  registry_written d ->
  exists tasks,
    summaries d w = (Ok tasks, w)
    /\ map sum_task_id tasks = dict_keys d
    /\ Forall (fun s =>
         (sum_status s = PStr "running" \/ sum_status s = PStr "completed")
         /\ (exists st, sum_stock s = Some (PStr st))
         /\ (exists m, sum_execution_mode s = Some (PStr m))
         /\ (sum_status s = PStr "completed" <->
             exists t, sum_execution_time s = Some (PFloat t))) tasks.
Proof.
  induction 1 as [|[task_id data] r Hdata Hr (tasks & Hs & Hids & Hall)].
  - exists []. repeat split; constructor.
  - simpl in Hdata.
    destruct Hdata; eexists (_ :: tasks); simpl; unfold bind, getitem; simpl;
      rewrite Hs; simpl;
      (split; [reflexivity|]); (split; [now rewrite Hids|]);
      (constructor; [|exact Hall]); simpl;
      (split; [tauto|]); (split; [eauto|]); (split; [eauto|]);
      (split; [try discriminate; eauto|]); try (intros [t [=]]); eauto.
Qed.

Lemma reachable_after_all E os : forall w,
  reachable E w -> reachable E (after_all E os w).
Proof.
  unfold after_all. induction os as [|o os IH]; intros w Hw; simpl; [exact Hw|].
  apply IH. now constructor.
Qed.

(** X1. In every state the server reaches, [list_tasks] returns without
    raising and without changing anything, one entry for every task of
    the registry in the order of the registry, each task once; every entry
    has status "running" or "completed", the stock and the mode of its
    request, and an execution time exactly when it is completed. *)
Theorem list_tasks_lists_registry E w :
  reachable E w ->
  exists tasks,
    list_tasks w = (Ok tasks, w)
    /\ map sum_task_id tasks = dict_keys (task_results w)
    /\ NoDup (map sum_task_id tasks)
    /\ Forall (fun s =>
         (sum_status s = PStr "running" \/ sum_status s = PStr "completed")
         /\ (exists st, sum_stock s = Some (PStr st))
         /\ (exists m, sum_execution_mode s = Some (PStr m))
         /\ (sum_status s = PStr "completed" <->
             exists t, sum_execution_time s = Some (PFloat t))) tasks.
Proof.
  intros Hw. destruct (reachable_registry E w Hw) as [Hnd Hwr].
  destruct (summaries_written (task_results w) w Hwr) as (tasks & Hs & Hids & Hall).
  exists tasks. unfold list_tasks, get_registry, bind. rewrite Hs.
  repeat split; trivial. now rewrite Hids.
Qed.

Lemma list_tasks_lists_registry_witness :
  exists tasks,
    list_tasks w_done = (Ok tasks, w_done)
    /\ map sum_task_id tasks = dict_keys (task_results w_done)
    /\ NoDup (map sum_task_id tasks)
    /\ Forall (fun s =>
         (sum_status s = PStr "running" \/ sum_status s = PStr "completed")
         /\ (exists st, sum_stock s = Some (PStr st))
         /\ (exists m, sum_execution_mode s = Some (PStr m))
         /\ (sum_status s = PStr "completed" <->
             exists t, sum_execution_time s = Some (PFloat t))) tasks.
Proof.
  apply (list_tasks_lists_registry E_twice w_done).
  apply reachable_after_all, reachable_initial.
Defined.




(** X3. When [delete_task] returns, the task was in the registry and is
    no longer; every other task has the record it had, the remaining tasks
    keep their order, and the queue of background tasks is untouched. *)
Theorem delete_removes_only_that_task task_id w msg w' :
  delete_task task_id w = (Ok msg, w') ->
  msg = "Task " ++ task_id ++ " deleted successfully"
  /\ dict_mem (task_results w) task_id = true
  /\ dict_get (task_results w') task_id = None
  /\ (forall other, other <> task_id ->
        dict_get (task_results w') other = dict_get (task_results w) other)
  /\ dict_keys (task_results w') =
       filter (fun k => negb (String.eqb k task_id)) (dict_keys (task_results w))
  /\ background w' = background w.
Proof.
  unfold delete_task. run_monad.
  destruct (dict_mem (task_results w) task_id); simpl; [|discriminate].
  intros [= <- <-]. simpl. split; [reflexivity|]. split; [reflexivity|].
  split; [apply dict_get_remove_same|]. split.
  - intros other Hne. now apply dict_get_remove_other.
  - split; [apply dict_keys_remove_filter|reflexivity].
Qed.

Lemma delete_removes_only_that_task_witness :
  "Task RELIANCE_100 deleted successfully" = "Task " ++ "RELIANCE_100" ++ " deleted successfully"
  /\ dict_mem (task_results w_done) "RELIANCE_100" = true
  /\ dict_get (task_results (snd (delete_task "RELIANCE_100" w_done)))
       "RELIANCE_100" = None
  /\ (forall other, other <> "RELIANCE_100" ->
        dict_get (task_results (snd (delete_task "RELIANCE_100" w_done))) other
        = dict_get (task_results w_done) other)
  /\ dict_keys (task_results (snd (delete_task "RELIANCE_100" w_done))) =
       filter (fun k => negb (String.eqb k "RELIANCE_100"))
         (dict_keys (task_results w_done))
  /\ background (snd (delete_task "RELIANCE_100" w_done)) = background w_done.
Proof.
  apply (delete_removes_only_that_task "RELIANCE_100" w_done).
  reflexivity.
Defined.



(** X5. The synchronous endpoint leaves no trace in the registry or on the
    queue, in either mode; an exception that comes out of it is a crew's,
    answered 500; and a response it returns is "completed" with no task
    id. *)
Theorem analyze_sync_leaves_no_record E request w :
  task_results (snd (analyze_sync E request w)) = task_results w
  /\ background (snd (analyze_sync E request w)) = background w
  /\ (forall e, fst (analyze_sync E request w) = Raise e ->
        (exists msg, e = CrewError msg)
        /\ http_status (fst (analyze_sync E request w)) = 500)
  /\ (forall response, fst (analyze_sync E request w) = Ok response ->
        ar_status response = "completed" /\ ar_task_id response = None).
Proof.
  assert (forall (r : result AnalysisResponse) msg,
            r = Raise (CrewError msg) ->
            (forall e, r = Raise e ->
               (exists m, e = CrewError m) /\ http_status r = 500)
            /\ (forall response, r = Ok response ->
                  ar_status response = "completed"
                  /\ ar_task_id response = None)) as Hraise.
  { intros r msg ->. split; [intros e [= <-]; eauto|discriminate]. }
  unfold analyze_sync. run_monad.
  destruct (String.eqb (execution_mode request) "parallel"); simpl.
  - destruct (kickoff E (List.length (kicks w)) financial_crew _); simpl;
      destruct (kickoff E _ news_crew _); simpl;
      try (split; [reflexivity|split; [reflexivity|]]; now eapply Hraise).
    destruct (kickoff E _ analysis_crew _); simpl;
      (split; [reflexivity|split; [reflexivity|]]); [|now eapply Hraise].
    split; [discriminate|]. now intros response [= <-].
  - destruct (kickoff E _ sequential_crew _); simpl;
      (split; [reflexivity|split; [reflexivity|]]); [|now eapply Hraise].
    split; [discriminate|]. now intros response [= <-].
Qed.

(** ** Task ids *)

Lemma string_of_uint_underscore_free d :
  underscore_free (NilEmpty.string_of_uint d).
Proof.
  induction d; simpl; (exact I || (split; [discriminate|assumption])).
Qed.

Lemma py_str_int_underscore_free n : underscore_free (py_str_int n).
Proof.
  unfold py_str_int, NilZero.string_of_int, NilZero.string_of_uint.
  destruct (Z.to_int n) as [d|d]; destruct d; simpl;
    repeat split; try discriminate; apply string_of_uint_underscore_free.
Qed.

Lemma py_str_int_inj n m : py_str_int n = py_str_int m -> n = m.
Proof.
  unfold py_str_int. intros H. apply DecimalZ.to_int_inj.
  assert (forall z, NilZero.int_of_string (NilZero.string_of_int (Z.to_int z))
                    = Some (Z.to_int z)) as Hrt.
  { intros z. apply NilZero.isi.
    - destruct z; simpl; try discriminate.
      intros [= Hp]. now apply (DecimalPos.Unsigned.to_uint_nonnil p).
    - destruct z; simpl; try discriminate.
      intros [= Hp]. now apply (DecimalPos.Unsigned.to_uint_nonnil p). }
  pose proof (Hrt n) as Hn. rewrite H, Hrt in Hn. now injection Hn.
Qed.

Lemma append_underscore_inj a b s1 s2 :
  underscore_free s1 -> underscore_free s2 ->
  a ++ "_" ++ s1 = b ++ "_" ++ s2 -> a = b /\ s1 = s2.
Proof.
  intros H1 H2. revert b.
  assert (forall x s t, underscore_free s -> s = x ++ String "_" t -> False) as Hno.
  { intros x s. revert x. induction s as [|c s IH]; intros x t Hs Heq.
    - destruct x; discriminate.
    - destruct Hs as [Hc Hs]. destruct x as [|c' x]; simpl in Heq.
      + injection Heq as -> _. now apply Hc.
      + injection Heq as _ Heq. exact (IH _ _ Hs Heq). }
  induction a as [|c a IH]; intros [|c' b]; simpl; intros Heq.
  - injection Heq as ->. now split.
  - injection Heq as <- Heq. exfalso. exact (Hno _ _ _ H1 Heq).
  - injection Heq as -> Heq. exfalso. exact (Hno _ _ _ H2 (eq_sym Heq)).
  - injection Heq as -> Heq. destruct (IH _ Heq) as [-> ->]. now split.
Qed.

(** X6. The task id of an accepted request is its stock, an underscore
    and the whole seconds of the clock; two accepted requests get the same
    task id exactly when they name the same stock within the same second. *)
Theorem task_ids_collide_only_within_a_second E r1 r2 w1 w2 resp1 resp2 w1' w2' :
  start_analysis E r1 w1 = (Ok resp1, w1') ->
  start_analysis E r2 w2 = (Ok resp2, w2') ->
  exists n1 n2,
    fst (py_int (time_at E (ticks w1)) w1) = Ok n1
    /\ fst (py_int (time_at E (ticks w2)) w2) = Ok n2
    /\ ar_task_id resp1 = Some (stock r1 ++ "_" ++ py_str_int n1)
    /\ ar_task_id resp2 = Some (stock r2 ++ "_" ++ py_str_int n2)
    /\ (ar_task_id resp1 = ar_task_id resp2 <-> stock r1 = stock r2 /\ n1 = n2).
Proof.
  unfold start_analysis. run_monad. unfold py_int.
  destruct (Prim2SF (time_at E (ticks w1))) as [s1|s1| |s1 m1 e1]; simpl;
    try discriminate;
    (destruct (Prim2SF (time_at E (ticks w2))) as [s2|s2| |s2 m2 e2]; simpl;
     try discriminate);
    intros [= <- _] [= <- _]; simpl;
    do 2 eexists; repeat (split; [reflexivity|]);
    (split; [intros [= Heq];
             apply append_underscore_inj in Heq;
             try apply py_str_int_underscore_free;
             destruct Heq as [Hs Hn]; split; [exact Hs|];
             exact (py_str_int_inj _ _ Hn)
            |intros [Hs Hn]; congruence]).
Qed.

Lemma task_ids_collide_only_within_a_second_witness :
  exists n1 n2,
    fst (py_int (time_at E_twice (ticks initial_world)) initial_world) = Ok n1
    /\ fst (py_int (time_at E_twice (ticks (at_tick 1))) (at_tick 1)) = Ok n2
    /\ ar_task_id (started "RELIANCE" "sequential" "RELIANCE_100")
       = Some (stock (reliance "sequential") ++ "_" ++ py_str_int n1)
    /\ ar_task_id (started "RELIANCE" "parallel" "RELIANCE_100")
       = Some (stock (reliance "parallel") ++ "_" ++ py_str_int n2)
    /\ (ar_task_id (started "RELIANCE" "sequential" "RELIANCE_100")
        = ar_task_id (started "RELIANCE" "parallel" "RELIANCE_100")
        <-> stock (reliance "sequential") = stock (reliance "parallel")
            /\ n1 = n2).
Proof.
  apply (task_ids_collide_only_within_a_second E_twice
           (reliance "sequential") (reliance "parallel")
           initial_world (at_tick 1)
           (started "RELIANCE" "sequential" "RELIANCE_100")
           (started "RELIANCE" "parallel" "RELIANCE_100")
           (snd (start_analysis E_twice (reliance "sequential") initial_world))
           (snd (start_analysis E_twice (reliance "parallel") (at_tick 1))));
    reflexivity.
Defined.

(** ** The coordinators *)

(** X7. When a crew of Phase 1 raises, [run_parallel_execution] raises
    that crew's exception (the financial crew's when both raise), after
    both crews of Phase 1 were kicked off and without kicking off the
    analysis crew or reading the clock again. *)
Theorem phase1_failure_skips_phase2 E stock_input w msg :
  kickoff E (List.length (kicks w)) financial_crew stock_input = Raises msg
  \/ (exists a,
        kickoff E (List.length (kicks w)) financial_crew stock_input = Returns a
        /\ kickoff E (List.length (kicks w) + 1) news_crew stock_input
           = Raises msg) ->
  fst (run_parallel_execution E stock_input w) = Raise (CrewError msg)
  /\ kicks (snd (run_parallel_execution E stock_input w)) =
       (kicks w ++ [(financial_crew, stock_input); (news_crew, stock_input)])%list
  /\ ticks (snd (run_parallel_execution E stock_input w)) = S (ticks w)
  /\ task_results (snd (run_parallel_execution E stock_input w)) = task_results w.
Proof.
  run_monad. intros [Hf|(a & Hf & Hn)]; rewrite Hf; simpl.
  - destruct (kickoff E _ news_crew _); simpl; rewrite <- app_assoc;
      repeat split; reflexivity.
  - rewrite length_app; simpl. rewrite Hn; simpl. rewrite <- app_assoc.
    repeat split; reflexivity.
Qed.

Lemma phase1_failure_skips_phase2_witness :
  fst (run_parallel_execution E_boom [("stock", PStr "RELIANCE")] initial_world)
    = Raise (CrewError "rate limit exceeded")
  /\ kicks (snd (run_parallel_execution E_boom [("stock", PStr "RELIANCE")]
                   initial_world)) =
       (kicks initial_world ++
          [(financial_crew, [("stock", PStr "RELIANCE")]);
           (news_crew, [("stock", PStr "RELIANCE")])])%list
  /\ ticks (snd (run_parallel_execution E_boom [("stock", PStr "RELIANCE")]
                   initial_world)) = S (ticks initial_world)
  /\ task_results (snd (run_parallel_execution E_boom
                          [("stock", PStr "RELIANCE")] initial_world))
     = task_results initial_world.
Proof.
  apply (phase1_failure_skips_phase2 E_boom [("stock", PStr "RELIANCE")]
           initial_world "rate limit exceeded").
  left. reflexivity.
Defined.


(** ** Writing a record and reading it back *)

(** X9. A background run that returns can be read back: the status view
    of its task is "completed", with the time from the first to the last
    clock reading of the run, a null result and a null error; the record
    holds the stock and the mode of the request as they were given, and a
    [time_saved] exactly when the mode is "parallel". *)
Theorem completed_run_reads_back E task_id stock mode w w' :
  run_analysis_background E task_id stock mode w = (Ok tt, w') ->
  exists execution_time record,
    execution_time = (time_at E (pred (ticks w')) - time_at E (ticks w))%float
    /\ get_task_status task_id w' =
         (Ok {| ts_task_id := task_id; ts_status := "completed";
                ts_result := None; ts_execution_time := Some execution_time;
                ts_error := None |}, w')
    /\ dict_get (task_results w') task_id = Some record
    /\ dict_get record "stock" = Some (PStr stock)
    /\ dict_get record "execution_mode" = Some (PStr mode)
    /\ (dict_get record "time_saved" <> None <-> mode = "parallel").
Proof.
  unfold get_task_status. run_monad.
  destruct (String.eqb mode "parallel") eqn:Hmode; simpl.
  - apply String.eqb_eq in Hmode.
    destruct (kickoff E (List.length (kicks w)) financial_crew _); simpl.
    2:{ destruct (kickoff E _ news_crew _); discriminate. }
    destruct (kickoff E _ news_crew _); simpl; [|discriminate].
    destruct (kickoff E _ analysis_crew _); simpl; [|discriminate].
    intros [= <-]. simpl. do 2 eexists. split; [reflexivity|].
    rewrite !dict_get_set_same. simpl.
    repeat (split; [reflexivity|]). split; [now intros _|discriminate].
  - apply String.eqb_neq in Hmode.
    destruct (kickoff E _ sequential_crew _); simpl; [|discriminate].
    intros [= <-]. simpl. do 2 eexists. split; [reflexivity|].
    rewrite !dict_get_set_same. simpl.
    repeat (split; [reflexivity|]). split; [intros H; now elim H|contradiction].
Qed.

Lemma completed_run_reads_back_witness :
  exists execution_time record,
    execution_time =
      (time_at E_ok
         (pred (ticks (snd (run_analysis_background E_ok "RELIANCE_100"
                              "RELIANCE" "parallel" initial_world))))
       - time_at E_ok (ticks initial_world))%float
    /\ get_task_status "RELIANCE_100"
         (snd (run_analysis_background E_ok "RELIANCE_100" "RELIANCE"
                 "parallel" initial_world)) =
         (Ok {| ts_task_id := "RELIANCE_100"; ts_status := "completed";
                ts_result := None; ts_execution_time := Some execution_time;
                ts_error := None |},
          snd (run_analysis_background E_ok "RELIANCE_100" "RELIANCE"
                 "parallel" initial_world))
    /\ dict_get
         (task_results
            (snd (run_analysis_background E_ok "RELIANCE_100" "RELIANCE"
                    "parallel" initial_world))) "RELIANCE_100" = Some record
    /\ dict_get record "stock" = Some (PStr "RELIANCE")
    /\ dict_get record "execution_mode" = Some (PStr "parallel")
    /\ (dict_get record "time_saved" <> None <-> "parallel" = "parallel").
Proof.
  apply (completed_run_reads_back E_ok "RELIANCE_100" "RELIANCE" "parallel"
           initial_world).
  reflexivity.
Defined.

(** ** The client *)

Lemma client_equals_str v s : Client.equals_str v s = true -> v = Client.JStr s.
Proof.
  destruct v; simpl; try discriminate. intros H.
  apply String.eqb_eq in H. now subst.
Qed.

Lemma client_wait_loop_status S fuel task_id poll_interval timeout start_time :
  forall st v st',
    Client.wait_loop S fuel task_id poll_interval timeout start_time st
      = Some (Client.Returned (Some v), st') ->
    Client.subscript v "status" = inl (Client.JStr "completed")
    \/ Client.subscript v "status" = inl (Client.JStr "failed").
Proof.
  induction fuel as [|fuel IH]; simpl; intros st v st' H; [discriminate|].
  destruct (PrimFloat.ltb _ timeout); [|discriminate].
  destruct (Client.get_task_status S task_id _) as [[body|] st2];
    [|discriminate].
  destruct (Client.truthy body); simpl in H; [|discriminate].
  destruct (Client.subscript body "status") as [s|e] eqn:Hs; [|discriminate].
  destruct (Client.equals_str s "completed") eqn:Hc.
  - injection H as <- _. left. rewrite Hs.
    now rewrite (client_equals_str _ _ Hc).
  - destruct (Client.equals_str s "failed") eqn:Hf.
    + injection H as <- _. right. rewrite Hs.
      now rewrite (client_equals_str _ _ Hf).
    + exact (IH _ _ _ H).
Qed.

(** X10. Whatever the server answers, a status that
    [wait_for_completion] returns has "completed" or "failed" under
    "status". *)
Theorem wait_returns_only_finished_tasks S fuel task_id poll_interval timeout st
  v st' :
  Client.wait_for_completion S fuel task_id poll_interval timeout st
    = Some (Client.Returned (Some v), st') ->
  Client.subscript v "status" = inl (Client.JStr "completed")
  \/ Client.subscript v "status" = inl (Client.JStr "failed").
Proof.
  unfold Client.wait_for_completion. simpl.
  apply client_wait_loop_status.
Qed.

Lemma wait_returns_only_finished_tasks_witness :
  Client.subscript
    (Client.json_of_status
       {| ts_task_id := "RELIANCE_100"; ts_status := "completed";
          ts_result := None; ts_execution_time := Some 0.125%float;
          ts_error := None |}) "status" = inl (Client.JStr "completed")
  \/ Client.subscript
       (Client.json_of_status
          {| ts_task_id := "RELIANCE_100"; ts_status := "completed";
             ts_result := None; ts_execution_time := Some 0.125%float;
             ts_error := None |}) "status" = inl (Client.JStr "failed").
Proof.
  eapply (wait_returns_only_finished_tasks S_done 3 "RELIANCE_100" 5 600
            Client.start).
  reflexivity.
Defined.

(** More fuel does not change how the loop ends. *)
Lemma client_wait_loop_fuel S task_id poll_interval timeout start_time fuel :
  forall st r more,
    Client.wait_loop S fuel task_id poll_interval timeout start_time st = Some r ->
    Client.wait_loop S (fuel + more) task_id poll_interval timeout start_time st
      = Some r.
Proof.
  induction fuel as [|fuel IH]; intros st r more H; [discriminate|].
  cbn [Nat.add]. cbn [Client.wait_loop] in *.
  destruct (Client.time_time S st) as [t st1].
  destruct (PrimFloat.ltb (t - start_time) timeout); [|exact H].
  destruct (Client.get_task_status S task_id st1) as [[body|] st2]; [|exact H].
  destruct (negb (Client.truthy body)); [exact H|].
  destruct (Client.subscript body "status") as [s|e]; [|exact H].
  destruct (Client.equals_str s "completed"); [exact H|].
  destruct (Client.equals_str s "failed"); [exact H|].
  now apply IH.
Qed.

Lemma client_get_task_status_state S task_id st :
  Client.clock_reads (snd (Client.get_task_status S task_id st))
    = Client.clock_reads st
  /\ List.length (Client.sent (snd (Client.get_task_status S task_id st)))
     = Datatypes.S (List.length (Client.sent st)).
Proof.
  unfold Client.get_task_status, Client.session_send.
  destruct (Client.send S _ _) as [code body|msg];
    [destruct (Client.is_error_status code)|]; simpl;
    rewrite length_app; simpl; split; trivial; lia.
Qed.

(** The loop is over at the first reading of the clock that is not within
    the timeout, if not before. *)
Lemma client_wait_loop_ends S task_id poll_interval timeout start_time k :
  forall st,
    PrimFloat.ltb (Client.now S (Client.clock_reads st + k) - start_time) timeout
      = false ->
    exists e st',
      Client.wait_loop S (Datatypes.S k) task_id poll_interval timeout
        start_time st = Some (e, st')
      /\ List.length (Client.sent st') <= List.length (Client.sent st) + k.
Proof.
  induction k as [|k IH]; intros st Hlate; cbn [Client.wait_loop].
  - rewrite Nat.add_0_r in Hlate. unfold Client.time_time. rewrite Hlate.
    do 2 eexists. split; [reflexivity|]. simpl. lia.
  - unfold Client.time_time at 1.
    destruct (PrimFloat.ltb (Client.now S (Client.clock_reads st) - start_time)
                timeout).
    2:{ do 2 eexists. split; [reflexivity|]. simpl. lia. }
    match goal with
    | |- context [Client.get_task_status S task_id ?s1] =>
        pose proof (client_get_task_status_state S task_id s1) as [Hclock Hsent];
        destruct (Client.get_task_status S task_id s1) as [[body|] st2]
    end; simpl in Hclock, Hsent.
    2:{ do 2 eexists. split; [reflexivity|]. lia. }
    destruct (negb (Client.truthy body)).
    { do 2 eexists. split; [reflexivity|]. lia. }
    destruct (Client.subscript body "status") as [s|e].
    2:{ do 2 eexists. split; [reflexivity|]. lia. }
    destruct (Client.equals_str s "completed").
    { do 2 eexists. split; [reflexivity|]. lia. }
    destruct (Client.equals_str s "failed").
    { do 2 eexists. split; [reflexivity|]. lia. }
    destruct (IH (Client.time_sleep poll_interval st2)) as (e & st' & Hrun & Hle).
    + simpl. rewrite Hclock. now rewrite <- Nat.add_succ_comm in Hlate.
    + exists e, st'. split; [exact Hrun|]. simpl in Hle. lia.
Qed.

(** X11. [wait_for_completion] is over by the first reading of the clock
    that is [timeout] or more after its start: when that is the reading of
    the test after [k] polls, the call has ended within [k + 1] rounds of
    its loop, however many more are allowed, and has sent at most [k]
    requests. *)
Theorem wait_ends_by_the_timeout S task_id poll_interval timeout st k :
  PrimFloat.ltb
    (Client.now S (Datatypes.S (Client.clock_reads st) + k)
     - Client.now S (Client.clock_reads st)) timeout = false ->
  exists e st',
    (forall more,
       Client.wait_for_completion S (Datatypes.S k + more) task_id poll_interval
         timeout st = Some (e, st'))
    /\ List.length (Client.sent st') <= List.length (Client.sent st) + k.
Proof.
  intros Hlate. unfold Client.wait_for_completion, Client.time_time.
  match goal with
  | |- context [Client.wait_loop S _ task_id poll_interval timeout ?t0 ?s1] =>
      destruct (client_wait_loop_ends S task_id poll_interval timeout t0 k s1)
        as (e & st' & Hrun & Hsent); [exact Hlate|]
  end.
  exists e, st'. split; [|exact Hsent].
  intros more. now apply client_wait_loop_fuel.
Qed.

Lemma wait_ends_by_the_timeout_witness :
  exists e st',
    (forall more,
       Client.wait_for_completion S_stuck (Datatypes.S 2 + more) "RELIANCE_100"
         5 600 Client.start = Some (e, st'))
    /\ List.length (Client.sent st') <= List.length (Client.sent Client.start) + 2.
Proof.
  apply (wait_ends_by_the_timeout S_stuck "RELIANCE_100" 5 600 Client.start 2).
  reflexivity.
Defined.




(** ** The scripts around the server *)

Lemma starter_collect_missing env vars acc :
  Starter.collect_missing env vars acc =
    (acc ++ filter (Starter.unset_or_empty env) vars)%list.
Proof.
  revert acc. induction vars as [|var rest IH]; intros acc; simpl.
  - now rewrite app_nil_r.
  - destruct (Starter.unset_or_empty env var); rewrite IH; [|reflexivity].
    now rewrite <- app_assoc.
Qed.

(** X13. [start_server.py] runs the server, on the host and port of the
    command line and with reload unless [--no-reload] is given, only when
    [api_server.py] is there, the packages import and both
    [OPENAI_API_KEY] and [EXA_API_KEY] are set and not empty; in every
    other case it exits with status 1, and a variable set to the empty
    string counts as missing. *)
Theorem server_starts_only_when_configured m run args :
  (Starter.main m run args
     = Starter.Served (Starter.host args) (Starter.port args)
         (negb (Starter.no_reload args))
   /\ Starter.api_server_file m = true
   /\ Starter.importable m = true
   /\ (forall var, In var Starter.required_vars ->
         exists value,
           dict_get (Starter.environ m) var = Some value /\ value <> ""))
  \/ (Starter.main m run args = Starter.Exit 1
      /\ (Starter.api_server_file m = false
          \/ Starter.importable m = false
          \/ exists var,
               In var (Starter.missing (Starter.environ m))
               /\ In var Starter.required_vars
               /\ (dict_get (Starter.environ m) var = None
                   \/ dict_get (Starter.environ m) var = Some ""))).
Proof.
  unfold Starter.main, Starter.check_requirements, Starter.check_env_vars,
    Starter.missing.
  rewrite starter_collect_missing. cbn [app].
  destruct (Starter.api_server_file m); cbn [negb]; [|right; auto].
  destruct (Starter.importable m); cbn [negb]; [|right; auto].
  destruct (filter (Starter.unset_or_empty (Starter.environ m))
              Starter.required_vars) as [|var rest] eqn:Hf; cbn [negb].
  - left. destruct run; (split; [reflexivity|]); repeat (split; trivial);
      intros var Hin;
      (destruct (Starter.unset_or_empty (Starter.environ m) var) eqn:Hu;
       [assert (In var (filter (Starter.unset_or_empty (Starter.environ m))
                          Starter.required_vars)) as Hbad
          by (apply filter_In; now split);
        rewrite Hf in Hbad; contradiction|]);
      unfold Starter.unset_or_empty in Hu;
      (destruct (dict_get (Starter.environ m) var) as [value|];
       [|discriminate]);
      exists value; (split; [reflexivity|]);
      now apply String.eqb_neq.
  - right. split; [reflexivity|]. right; right. exists var.
    assert (In var (filter (Starter.unset_or_empty (Starter.environ m))
                      Starter.required_vars)) as Hin
      by (rewrite Hf; now left).
    split; [now left|]. apply filter_In in Hin as [Hreq Hu].
    split; [exact Hreq|]. unfold Starter.unset_or_empty in Hu.
    destruct (dict_get (Starter.environ m) var) as [value|]; [|now left].
    right. apply String.eqb_eq in Hu. now subst.
Qed.

Lemma sum_squares_below n :
  (6 * py_sum (map (fun i => i ^ 2) (map Z.of_nat (seq 0 n)))
   = (Z.of_nat n - 1) * Z.of_nat n * (2 * Z.of_nat n - 1))%Z.
Proof.
  induction n as [|n IH]; [reflexivity|].
  rewrite seq_S, !map_app. unfold py_sum in *. rewrite fold_left_app.
  cbn [map fold_left Nat.add]. rewrite Nat2Z.inj_succ.
  set (total := fold_left Z.add _ 0%Z) in *. nia.
Qed.

(** X14. [cpu_task(name, number)] returns the name, a colon and the sum
    of the squares below [number], which is
    [(number - 1) * number * (2 * number - 1) / 6], and 0 when [number]
    is not positive. *)
Theorem cpu_task_sums_squares name number :
  exists result,
    cpu_task name number = name ++ ": " ++ py_str_int result
    /\ (6 * result
        = (Z.max number 0 - 1) * Z.max number 0 * (2 * Z.max number 0 - 1))%Z.
Proof.
  unfold cpu_task, py_range. eexists. split; [reflexivity|].
  rewrite sum_squares_below.
  destruct (Z.le_gt_cases 0 number) as [Hpos|Hneg].
  - rewrite Z2Nat.id, Z.max_l by lia. reflexivity.
  - rewrite Z.max_r by lia. now destruct number.
Qed.

(** ** The memory explorer *)

Lemma explorer_rstrip_fixed s :
  Explorer.rstrip (Explorer.rstrip s) = Explorer.rstrip s.
Proof.
  induction s as [|c r IH]; simpl; [reflexivity|].
  destruct (Explorer.rstrip r) as [|c' r'] eqn:Hr.
  - destruct (Explorer.is_space c) eqn:Hc; simpl; [reflexivity|].
    now rewrite Hc.
  - simpl in *. now rewrite IH.
Qed.

Lemma explorer_lstrip_keeps_end s :
  Explorer.rstrip s = s -> Explorer.rstrip (Explorer.lstrip s) = Explorer.lstrip s.
Proof.
  induction s as [|c r IH]; simpl; [reflexivity|]. intros H.
  destruct (Explorer.is_space c) eqn:Hc.
  - apply IH. destruct (Explorer.rstrip r) as [|c' r'].
    + discriminate.
    + now injection H.
  - simpl. rewrite Hc. exact H.
Qed.

Lemma explorer_lstrip_fixed s :
  Explorer.lstrip (Explorer.lstrip s) = Explorer.lstrip s.
Proof.
  induction s as [|c r IH]; simpl; [reflexivity|].
  destruct (Explorer.is_space c) eqn:Hc; [exact IH|]. simpl. now rewrite Hc.
Qed.

Lemma explorer_strip_fixed s :
  Explorer.strip (Explorer.strip s) = Explorer.strip s.
Proof.
  unfold Explorer.strip.
  rewrite (explorer_lstrip_keeps_end _ (explorer_rstrip_fixed s)).
  apply explorer_lstrip_fixed.
Qed.

Lemma explorer_lstrip_Forall (P : N -> Prop) s :
  Forall P s -> Forall P (Explorer.lstrip s).
Proof.
  induction 1 as [|c r Hc Hr IH]; simpl; [constructor|].
  destruct (Explorer.is_space c); [exact IH|now constructor].
Qed.

Lemma explorer_rstrip_Forall (P : N -> Prop) s :
  Forall P s -> Forall P (Explorer.rstrip s).
Proof.
  induction 1 as [|c r Hc Hr IH]; simpl; [constructor|].
  destruct (Explorer.rstrip r) as [|c' r'].
  - destruct (Explorer.is_space c); [constructor|now constructor].
  - now constructor.
Qed.

Lemma explorer_replace_Forall s :
  Forall (fun c => c <> Explorer.underscore) (Explorer.replace_underscores s).
Proof.
  unfold Explorer.replace_underscores.
  induction s as [|c r IH]; simpl; constructor; trivial.
  destruct (N.eqb_spec c Explorer.underscore); [discriminate|assumption].
Qed.

Lemma explorer_replace_none s :
  Forall (fun c => c <> Explorer.underscore) s ->
  Explorer.replace_underscores s = s.
Proof.
  unfold Explorer.replace_underscores.
  induction 1 as [|c r Hc Hr IH]; simpl; [reflexivity|].
  rewrite IH. now destruct (N.eqb_spec c Explorer.underscore).
Qed.

(** X15. A normalized agent name is not changed by normalizing it again,
    holds no underscore, and neither begins nor ends with white space. *)
Theorem normalize_agent_name_is_stable agent_name :
  let name := Explorer.normalize_agent_name agent_name in
  Explorer.normalize_agent_name name = name
  /\ Forall (fun c => c <> Explorer.underscore) name
  /\ (forall c rest, name = c :: rest -> Explorer.is_space c = false)
  /\ (forall c front, name = (front ++ [c])%list -> Explorer.is_space c = false).
Proof.
  cbv zeta. unfold Explorer.normalize_agent_name.
  set (r := Explorer.replace_underscores agent_name).
  assert (Forall (fun c => c <> Explorer.underscore) (Explorer.strip r)) as Hfree.
  { unfold Explorer.strip.
    apply explorer_lstrip_Forall, explorer_rstrip_Forall.
    apply explorer_replace_Forall. }
  split; [|split; [exact Hfree|split]].
  - rewrite (explorer_replace_none _ Hfree). apply explorer_strip_fixed.
  - intros c rest Heq.
    pose proof (explorer_lstrip_fixed (Explorer.rstrip r)) as Hl.
    unfold Explorer.strip in Heq. rewrite Heq in Hl. simpl in Hl.
    destruct (Explorer.is_space c) eqn:Hc; [|reflexivity].
    exfalso. clear - Hl.
    assert (forall s, List.length (Explorer.lstrip s) <= List.length s) as Hlen.
    { induction s as [|x s IH]; simpl; [lia|].
      destruct (Explorer.is_space x); simpl; lia. }
    specialize (Hlen rest). rewrite Hl in Hlen. simpl in Hlen. lia.
  - intros c front Heq.
    assert (Explorer.rstrip (Explorer.strip r) = Explorer.strip r) as Hr.
    { unfold Explorer.strip.
      apply explorer_lstrip_keeps_end, explorer_rstrip_fixed. }
    rewrite Heq in Hr. clear - Hr.
    induction front as [|x front IH]; simpl in Hr.
    + destruct (Explorer.is_space c); [discriminate|reflexivity].
    + destruct (Explorer.rstrip (front ++ [c])%list) as [|y rest] eqn:Hrs.
      * destruct front; simpl in Hr; destruct (Explorer.is_space x); discriminate.
      * injection Hr as Hr. now apply IH.
Qed.

(** X16. The cells the explorer cuts fit the width of their columns (25
    for the expected and the actual output, 40 for the task description,
    50 for the sample content), and a text that fits is shown as it is. *)
Theorem table_cells_fit_their_columns (s : Explorer.text) :
  List.length (Explorer.expected_display s) <= 25
  /\ List.length (Explorer.result_display s) <= 25
  /\ List.length (Explorer.task_display s) <= 40
  /\ List.length (Explorer.sample_content s) <= 50
  /\ (List.length s <= 25 ->
      Explorer.expected_display s = s /\ Explorer.result_display s = s)
  /\ (List.length s <= 40 -> Explorer.task_display s = s)
  /\ (List.length s <= 50 -> Explorer.sample_content s = s).
Proof.
  unfold Explorer.expected_display, Explorer.result_display,
    Explorer.task_display, Explorer.sample_content, Explorer.dots.
  destruct (Nat.ltb_spec 25 (List.length s)) as [H25|H25];
    destruct (Nat.ltb_spec 40 (List.length s)) as [H40|H40];
    destruct (Nat.ltb_spec 50 (List.length s)) as [H50|H50];
    rewrite ?length_app, ?length_firstn; cbn [List.length];
    repeat split; intros; try lia; reflexivity.
Qed.

(** X17. The health score counts which of the four statistics are
    positive; its colour is red up to 1, yellow for 2 and 3, and green only
    when all four are: some task output, some long-term memory, some
    embedding and some agent. *)
Theorem health_color_by_score (s : Explorer.stats) :
  (0 <= Explorer.health_score s <= 4)%Z
  /\ Explorer.health_color s =
       (if (Explorer.health_score s <=? 1)%Z then "red"
        else if (Explorer.health_score s <=? 3)%Z then "yellow"
        else "green")
  /\ (Explorer.health_color s = "green" <->
      (0 < Explorer.task_outputs s)%Z
      /\ (0 < Explorer.long_term_memories s)%Z
      /\ (0 < Explorer.total_embeddings s)%Z
      /\ Explorer.agents s <> []).
Proof.
  unfold Explorer.health_color, Explorer.health_percentage,
    Explorer.health_score.
  assert (Nat.ltb 0 (List.length (Explorer.agents s)) = true
          <-> Explorer.agents s <> []) as Hagents.
  { destruct (Explorer.agents s); simpl; split; intros H;
      try discriminate; try reflexivity. now elim H. }
  destruct (Z.ltb_spec 0 (Explorer.task_outputs s)) as [Ht|Ht];
    destruct (Z.ltb_spec 0 (Explorer.long_term_memories s)) as [Hm|Hm];
    destruct (Z.ltb_spec 0 (Explorer.total_embeddings s)) as [He|He];
    destruct (Nat.ltb 0 (List.length (Explorer.agents s))) eqn:Ha;
    (split; [vm_compute; split; discriminate|]);
    (split; [vm_compute; reflexivity|]);
    vm_compute Explorer.float_of_int;
    cbv -[Z.lt not Explorer.task_outputs Explorer.long_term_memories
          Explorer.total_embeddings Explorer.agents];
    (split; [intros Hg; try discriminate Hg;
             repeat split; try assumption; now apply (proj1 Hagents)
            |intros (G1 & G2 & G3 & G4); try lia; try reflexivity;
             apply (proj2 Hagents) in G4; discriminate G4]).
Qed.
